(** * Visa Guide AI: the sync layer and the upload validator

    A shallow embedding of [src/data-sync.js] (class [DataSync]: debounced
    field writes, the [localStorage] fallback and [forceSync]) and of the
    [DocumentManager] object (file validation before upload), followed by
    the properties of the specification that concern them.

    The browser is single threaded.  A piece of JavaScript runs to its next
    [await]; the world then waits for an event: a call from the page, a
    timeout that becomes due, or the settling of the promise of a remote
    write.  The embedding follows that shape: every handler is a function
    on a [world] record, an [await] parks a [task] until its request
    settles, and [run] folds a timed list of events over a world. *)

From stdpp Require Import gmap strings list fin_maps sorting pretty.

#[local] Set Warnings "-register-all".

(** ** Numbers *)

(** A JavaScript number is an IEEE 754 double.  The model has the whole
    numbers among the doubles: those written with at most 53 significant
    bits, below 2^1024.  Every whole number below 2^53 is one of them. *)
Definition is_double (z : Z) : bool :=
  let a := Z.abs z in
  (a <? 2 ^ 53)%Z || ((a mod 2 ^ (Z.log2 a - 52) =? 0)%Z && (a <? 2 ^ 1024)%Z).

Record number := Number {
  integer : Z;
  is_number : is_double integer;
}.

(** The Number value for a whole number: the nearest number with 53
    significant bits, the one with an even significand of two equally
    near.  A result of 2^1024 or more stands for an infinity. *)
Definition nearest_double (z : Z) : Z :=
  let a := Z.abs z in
  let e := (Z.log2 a - 52)%Z in
  if (e <=? 0)%Z then z
  else
    let m := (a / 2 ^ e)%Z in
    let r := (a mod 2 ^ e)%Z in
    let half := (2 ^ (e - 1))%Z in
    let m' := if (half <? r)%Z || ((r =? half)%Z && Z.odd m) then (m + 1)%Z else m in
    (Z.sgn z * (m' * 2 ^ e))%Z.

(** The number [JSON.parse] reads from the numeral of a whole number;
    [None] when the numeral is read as an infinity, which the model does
    not have. *)
Definition literal (z : Z) : option number :=
  match decide (Is_true (is_double (nearest_double z))) with
  | left H => Some (Number (nearest_double z) H)
  | right _ => None
  end.

(** [Number::toString] looks for the fewest decimal digits [s], [k] of
    them, such that [s * 10^(n-k)] has the number [a] as its Number value,
    and among several such [s] for the one nearest to [a].  [len] is the
    count of decimal digits of [a]; 17 digits always suffice. *)
Fixpoint shortest (fuel : nat) (k : Z) (a len : Z) : Z * Z :=
  match fuel with
  | O => (a, len)
  | S fuel' =>
      let p := (10 ^ (len - k))%Z in
      let lo := (a / p)%Z in
      let hi := (lo + 1)%Z in
      let lo_ok := (nearest_double (lo * p) =? a)%Z in
      let hi_ok := (nearest_double (hi * p) =? a)%Z in
      let hi_nearer :=
        (hi * p - a <? a - lo * p)%Z || ((hi * p - a =? a - lo * p)%Z && Z.even hi) in
      if hi_ok && (negb lo_ok || hi_nearer) then
        if (hi =? 10 ^ k)%Z then (10 ^ (k - 1), len + 1)%Z else (hi, len)
      else if lo_ok then (lo, len)
      else shortest fuel' (k + 1)%Z a len
  end.

(** [String(x)] for a whole number [x]: the digits found, filled up with
    zeros when the number is below 10^21 and followed by the exponent
    otherwise. *)
Definition Number_toString (z : Z) : string :=
  let a := Z.abs z in
  let sign := if (z <? 0)%Z then "-" else "" in
  if (a =? 0)%Z then "0"
  else
    let '(s, n) := shortest 17 1 a (Z.of_nat (String.length (pretty (Z.to_N a)))) in
    let digits := pretty (Z.to_N s) in
    if (n <=? 21)%Z then
      sign +:+ digits +:+ String.concat "" (replicate (Z.to_nat n - String.length digits) "0")
    else
      match digits with
      | String d "" => sign +:+ String d "" +:+ "e+" +:+ pretty (Z.to_N (n - 1))
      | String d more => sign +:+ String d ("." +:+ more) +:+ "e+" +:+ pretty (Z.to_N (n - 1))
      | "" => ""
      end.

(** ** JSON values and the text kept in [localStorage] *)

(** Values that survive [JSON.stringify]: [null], booleans, whole numbers,
    strings and objects; an object is a finite map from the names of its
    own properties to their values.  Arrays are not represented: the sync
    layer never looks inside the values it is handed. *)
Inductive json :=
  | JNull
  | JBool (b : bool)
  | JNum (n : number)
  | JStr (s : string)
  | JObj (o : gmap string json).

(** What a [localStorage] slot holds.  [Json j] stands for any text that
    [JSON.parse] reads as the value [j], whatever its white space, the
    order of its properties or the spelling of its numbers: the numerals
    9007199254740993 and 9007199254740992 are both read as the number
    2^53 (see [literal]).  [Raw s] is text that [JSON.parse] rejects with
    a [SyntaxError], the empty string among them. *)
Inductive text :=
  | Json (j : json)
  | Raw (s : string).

(** [JSON.stringify] writes a text that [JSON.parse] reads back as the
    value written; every number of [json] is a double, and the digits
    [Number::toString] chooses for a double are read back as that double. *)
Definition JSON_stringify (j : json) : text := Json j.

(** [JSON.parse(localStorage.getItem(key))]: an absent key gives [null],
    which [JSON.parse] reads as the text "null"; [None] is a thrown error. *)
Definition JSON_parse (item : option text) : option json :=
  match item with
  | None => Some JNull
  | Some (Json j) => Some j
  | Some (Raw _) => None
  end.

(** Truthiness of [localStorage.getItem(key)]: [null] and the empty string
    are falsy. *)
Definition truthy_item (item : option text) : bool :=
  match item with
  | None => false
  | Some (Raw "") => false
  | Some _ => true
  end.

(** Truthiness of a nullable string such as [this.userId]. *)
Definition truthy (s : option string) : bool :=
  match s with
  | None | Some "" => false
  | Some _ => true
  end.

(** The own properties of an object after [data[name] = value], [o] being
    its own properties before.  The object is an ordinary one whose
    prototype chain ends in [Object.prototype], as [{}] and every object
    that [JSON.parse] returns.  An ordinary name gets an own property.
    The name [__proto__] does so only when the object already has an own
    property of that name ([JSON.parse] makes one for the key
    "__proto__"); otherwise the assignment runs the setter inherited from
    [Object.prototype], which changes the prototype (for an object or
    [null]) or does nothing, and no property is written.  The code
    assigns a computed name once per object and never looks at the
    prototype afterwards: [JSON.stringify] and the object spread read own
    properties only, and no value of [json] is a callable [toJSON]. *)
Definition assign (o : gmap string json) (name : string) (value : json) : gmap string json :=
  match o !! name with
  | Some _ => <[name := value]> o
  | None => if String.eqb name "__proto__" then o else <[name := value]> o
  end.

(** [data[name] = value] in strict mode (class bodies are strict).  On
    [null] the assignment throws a [TypeError], here [None].  On a number,
    a string or a boolean it throws as well, except for the name
    [__proto__]: the inherited setter is called and returns without
    doing anything. *)
Definition set_property (data : json) (name : string) (value : json) : option json :=
  match data with
  | JObj o => Some (JObj (assign o name value))
  | JNull => None
  | _ => if String.eqb name "__proto__" then Some data else None
  end.

(** ** [Date.prototype.toISOString] *)

(** The clock counts milliseconds since the epoch.  Days are turned into a
    civil date in the proleptic Gregorian calendar. *)
Definition civil_from_days (days : Z) : Z * Z * Z :=
  let z := (days + 719468)%Z in
  let era := (z / 146097)%Z in
  let doe := (z - era * 146097)%Z in
  let yoe := ((doe - doe / 1460 + doe / 36524 - doe / 146096) / 365)%Z in
  let doy := (doe - (365 * yoe + yoe / 4 - yoe / 100))%Z in
  let mp := ((5 * doy + 2) / 153)%Z in
  let d := (doy - (153 * mp + 2) / 5 + 1)%Z in
  let m := (if (mp <? 10)%Z then mp + 3 else mp - 9)%Z in
  let y := (yoe + era * 400)%Z in
  ((if (m <=? 2)%Z then y + 1 else y)%Z, m, d).

Fixpoint zeros (n : nat) : string :=
  match n with
  | O => ""
  | S n => "0" +:+ zeros n
  end.

Definition padStart (width : nat) (n : Z) : string :=
  let digits := pretty (Z.to_N n) in
  zeros (width - String.length digits) +:+ digits.

Definition toISOString (ms : N) : string :=
  let t := Z.of_N ms in
  let '(y, m, d) := civil_from_days (t / 86400000) in
  let r := (t mod 86400000)%Z in
  (if (y <=? 9999)%Z then padStart 4 y else "+" +:+ padStart 6 y)
    +:+ "-" +:+ padStart 2 m +:+ "-" +:+ padStart 2 d
    +:+ "T" +:+ padStart 2 (r / 3600000)
    +:+ ":" +:+ padStart 2 (r / 60000 mod 60)
    +:+ ":" +:+ padStart 2 (r / 1000 mod 60)
    +:+ "." +:+ padStart 3 (r mod 1000) +:+ "Z".

#[global] Arguments toISOString : simpl never.

Module DataSync.

(** ** The state of the page *)

(** [this.syncStatus]: 'synced', 'syncing', 'offline', 'error'. *)
Inductive status := Synced | Syncing | Offline | Error.

#[export] Instance status_eq_dec : EqDecision status.
Proof. solve_decision. Defined.

(** Whether a statement sequence ran to its end or threw. *)
Inductive completion := Normal | Throw.

(** A registered callback.  [lid] is its identity ([!==] in
    [removeSyncListener]), [callable] is [typeof listener === 'function'],
    and [raises st msg] tells whether the call [listener(st, msg)] throws. *)
Record listener := Listener {
  lid : nat;
  callable : bool;
  raises : status -> string -> bool;
}.

(** One invocation [listener(status, message)], as seen from outside. *)
Abbreviation call := (nat * status * string)%type.

(** What a timeout runs when it fires. *)
Inductive action :=
  | Flush (collection docId fieldName : string) (value : json) (key : string)
      (* the closure scheduled by [saveFormData] *)
  | InitialSyncDone.
      (* the closure scheduled by [_startSync] *)

Record timer := Timer {
  t_id : nat;
  t_due : N;
  t_action : action;
}.

(** A call [FirebaseCore.updateDocument(path, data)]. *)
Record request := Request {
  rq_path : string;
  rq_data : gmap string json;
}.

(** The rest of an [async] function parked at
    [await FirebaseCore.updateDocument(...)]. *)
Inductive task :=
  | FlushTask (collection docId fieldName : string) (value : json) (key : string)
  | ForceSyncTask (key : string) (rest : list string).

(** The [DataSync] instance (first five fields) and the part of the browser
    it touches.  Requests are numbered by their position in [requests];
    [awaiting] maps the number of a request to the code that waits for it;
    [calls] logs listener invocations in the order they happen. *)
Record world := World {
  db : bool;
  userId : option string;
  syncStatus : status;
  syncListeners : list listener;
  pendingWrites : gmap string nat;
  localStorage : gmap string text;
  clock : N;
  timers : list timer;
  nextTimerId : nat;
  requests : list request;
  awaiting : gmap nat task;
  calls : list call;
}.

Definition set_userId (u : option string) (w : world) : world :=
  World (db w) u (syncStatus w) (syncListeners w) (pendingWrites w) (localStorage w)
        (clock w) (timers w) (nextTimerId w) (requests w) (awaiting w) (calls w).

Definition set_syncStatus (st : status) (w : world) : world :=
  World (db w) (userId w) st (syncListeners w) (pendingWrites w) (localStorage w)
        (clock w) (timers w) (nextTimerId w) (requests w) (awaiting w) (calls w).

Definition set_syncListeners (ls : list listener) (w : world) : world :=
  World (db w) (userId w) (syncStatus w) ls (pendingWrites w) (localStorage w)
        (clock w) (timers w) (nextTimerId w) (requests w) (awaiting w) (calls w).

Definition set_pendingWrites (p : gmap string nat) (w : world) : world :=
  World (db w) (userId w) (syncStatus w) (syncListeners w) p (localStorage w)
        (clock w) (timers w) (nextTimerId w) (requests w) (awaiting w) (calls w).

Definition set_localStorage (s : gmap string text) (w : world) : world :=
  World (db w) (userId w) (syncStatus w) (syncListeners w) (pendingWrites w) s
        (clock w) (timers w) (nextTimerId w) (requests w) (awaiting w) (calls w).

Definition set_clock (t : N) (w : world) : world :=
  World (db w) (userId w) (syncStatus w) (syncListeners w) (pendingWrites w) (localStorage w)
        t (timers w) (nextTimerId w) (requests w) (awaiting w) (calls w).

Definition set_timers (ts : list timer) (w : world) : world :=
  World (db w) (userId w) (syncStatus w) (syncListeners w) (pendingWrites w) (localStorage w)
        (clock w) ts (nextTimerId w) (requests w) (awaiting w) (calls w).

Definition set_nextTimerId (n : nat) (w : world) : world :=
  World (db w) (userId w) (syncStatus w) (syncListeners w) (pendingWrites w) (localStorage w)
        (clock w) (timers w) n (requests w) (awaiting w) (calls w).

Definition set_requests (rs : list request) (w : world) : world :=
  World (db w) (userId w) (syncStatus w) (syncListeners w) (pendingWrites w) (localStorage w)
        (clock w) (timers w) (nextTimerId w) rs (awaiting w) (calls w).

Definition set_awaiting (a : gmap nat task) (w : world) : world :=
  World (db w) (userId w) (syncStatus w) (syncListeners w) (pendingWrites w) (localStorage w)
        (clock w) (timers w) (nextTimerId w) (requests w) a (calls w).

Definition set_calls (cs : list call) (w : world) : world :=
  World (db w) (userId w) (syncStatus w) (syncListeners w) (pendingWrites w) (localStorage w)
        (clock w) (timers w) (nextTimerId w) (requests w) (awaiting w) cs.

(** ** The constructor *)

Definition writeDebounceMs : N := 500.

(** [new DataSync()] on a freshly loaded page.  [_init] has no [await], so
    it runs inside the constructor: with [FirebaseCore] loaded it takes the
    database handle and registers the identity observer, otherwise it
    returns at once.  [storage] is what [localStorage] holds at load time. *)
Definition constructor (firebase_loaded : bool) (storage : gmap string text) : world :=
  {| db := firebase_loaded;
     userId := None;
     syncStatus := Synced;
     syncListeners := [];
     pendingWrites := ∅;
     localStorage := storage;
     clock := 0%N;
     timers := [];
     nextTimerId := 1;
     requests := [];
     awaiting := ∅;
     calls := [] |}.

(** ** Listeners *)

(** [this.syncListeners.forEach(listener => ...)]: callbacks are called in
    list order; nothing catches what a callback throws, so the first
    exception ends the loop and leaves the enclosing function. *)
Fixpoint forEach (ls : list listener) (st : status) (msg : string)
    (log : list call) : list call * completion :=
  match ls with
  | [] => (log, Normal)
  | l :: rest =>
      if callable l then
        if raises l st msg then (log ++ [(lid l, st, msg)], Throw)
        else forEach rest st msg (log ++ [(lid l, st, msg)])
      else forEach rest st msg log
  end.

(** [_notifySyncListeners(status, message)].  The status is stored before
    any listener runs.  [_updateSyncStatusUI] only touches the document. *)
Definition _notifySyncListeners (st : status) (msg : string) (w : world) : world * completion :=
  let w1 := set_syncStatus st w in
  let '(log, c) := forEach (syncListeners w1) st msg (calls w1) in
  (set_calls log w1, c).

Definition addSyncListener (callback : listener) (w : world) : world :=
  set_syncListeners (syncListeners w ++ [callback]) w.

Definition removeSyncListener (callback : nat) (w : world) : world :=
  set_syncListeners (filter (λ l, lid l ≠ callback) (syncListeners w)) w.

(** ** The local fallback *)

(** [localStorage.setItem] and [removeItem]; the storage is taken to accept
    every write. *)
Definition setItem (key : string) (value : text) (w : world) : world :=
  set_localStorage (<[key := value]> (localStorage w)) w.

Definition removeItem (key : string) (w : world) : world :=
  set_localStorage (delete key (localStorage w)) w.

(** [_saveToLocalStorage(collection, docId, fieldName, value)].  A thrown
    [SyntaxError] or [TypeError] leaves the storage as it was. *)
Definition _saveToLocalStorage (collection docId fieldName : string) (value : json)
    (w : world) : world * completion :=
  let key := collection +:+ "_" +:+ docId in
  let existing := localStorage w !! key in
  let parsed := if truthy_item existing then JSON_parse existing else Some (JObj ∅) in
  match parsed with
  | None => (w, Throw)
  | Some data =>
      match set_property data fieldName value with
      | None => (w, Throw)
      | Some data1 =>
          match set_property data1 "_lastUpdated" (JStr (toISOString (clock w))) with
          | None => (w, Throw)
          | Some data2 => (setItem key (JSON_stringify data2) w, Normal)
          end
      end
  end.

(** ** Timeouts and remote writes *)

Definition setTimeout (a : action) (delay : N) (w : world) : nat * world :=
  let id := nextTimerId w in
  (id, set_nextTimerId (S id) (set_timers (timers w ++ [Timer id (clock w + delay) a]) w)).

(** Clearing a timeout that has fired, or never existed, does nothing. *)
Definition clearTimeout (id : nat) (w : world) : world :=
  set_timers (filter (λ t, t_id t ≠ id) (timers w)) w.

(** The template literal [`users/${this.userId}`]. *)
Definition user_path (w : world) : string :=
  "users/" +:+ default "null" (userId w).

(** [await FirebaseCore.updateDocument(path, data)]: the call is issued
    and the rest of the function, [k], waits for the promise to settle. *)
Definition await_updateDocument (path : string) (data : gmap string json) (k : task)
    (w : world) : world :=
  set_awaiting (<[length (requests w) := k]> (awaiting w))
    (set_requests (requests w ++ [Request path data]) w).

(** ** [saveFormData] and its debounced flush *)

Definition saveFormData (collection docId fieldName : string) (value : json)
    (w : world) : world :=
  if negb (truthy (userId w)) then
    (_saveToLocalStorage collection docId fieldName value w).1
  else
    let '(w1, c) := _notifySyncListeners Syncing "Saving..." w in
    match c with
    | Throw => w1
    | Normal =>
        let key := collection +:+ "." +:+ docId +:+ "." +:+ fieldName in
        let w2 := match pendingWrites w1 !! key with
                  | Some id => clearTimeout id w1
                  | None => w1
                  end in
        let '(timeoutId, w3) :=
          setTimeout (Flush collection docId fieldName value key) writeDebounceMs w2 in
        set_pendingWrites (<[key := timeoutId]> (pendingWrites w3)) w3
    end.

(** The timeout callback up to its [await]: [data] starts as [{}], gets
    [data[fieldName] = value] and then [data.lastUpdated]. *)
Definition flush_start (collection docId fieldName : string) (value : json) (key : string)
    (w : world) : world :=
  let data := <["lastUpdated" := JStr (toISOString (clock w))]> (assign ∅ fieldName value) in
  await_updateDocument (user_path w) data (FlushTask collection docId fieldName value key) w.

(** The [catch] block of the callback and the statement after it; an
    exception inside the block skips [pendingWrites.delete(key)]. *)
Definition flush_catch (collection docId fieldName : string) (value : json) (key : string)
    (w : world) : world :=
  let '(w1, c1) := _notifySyncListeners Error "Sync failed" w in
  match c1 with
  | Throw => w1
  | Normal =>
      let '(w2, c2) := _saveToLocalStorage collection docId fieldName value w1 in
      match c2 with
      | Throw => w2
      | Normal => set_pendingWrites (delete key (pendingWrites w2)) w2
      end
  end.

(** The callback after its [await]: [ok] tells whether the promise was
    fulfilled.  The notification of success sits inside the [try]. *)
Definition flush_resume (ok : bool) (collection docId fieldName : string) (value : json)
    (key : string) (w : world) : world :=
  if ok then
    let '(w1, c1) := _notifySyncListeners Synced "All changes saved" w in
    match c1 with
    | Normal => set_pendingWrites (delete key (pendingWrites w1)) w1
    | Throw => flush_catch collection docId fieldName value key w1
    end
  else flush_catch collection docId fieldName value key w.

(** ** [forceSync] *)

Definition isLocalKey (k : string) : bool :=
  String.prefix "forms_" k || String.prefix "documents_" k || String.prefix "profile_" k
  || String.eqb k "formData" || String.eqb k "progressData" || String.eqb k "settings".

(** [Object.keys(localStorage).filter(...)]; the browser fixes no order for
    the keys, the one of [map_to_list] is taken. *)
Definition localKeys (w : world) : list string :=
  filter (λ k, isLocalKey k = true) (map_to_list (localStorage w)).*1.

(** The document field a key is written to; [None] for a key that none of
    the three branches of the [if] chain handles. *)
Definition remoteField (key : string) : option string :=
  if String.eqb key "formData" then Some "forms"
  else if String.eqb key "progressData" then Some "progress"
  else if String.eqb key "settings" then Some "settings"
  else None.

(** The [for] loop from the key [keys] starts with, up to the next [await]
    or, when the keys are used up, through the last two statements. *)
Fixpoint forceSync_loop (keys : list string) (w : world) : world :=
  match keys with
  | [] => (_notifySyncListeners Synced "All changes saved" w).1
  | key :: rest =>
      match JSON_parse (localStorage w !! key) with
      | None => forceSync_loop rest w
      | Some data =>
          match remoteField key with
          | Some field =>
              await_updateDocument (user_path w) {[field := data]} (ForceSyncTask key rest) w
          | None => forceSync_loop rest (removeItem key w)
          end
      end
  end.

(** The loop after an [await]: a fulfilled write is followed by
    [removeItem], a rejected one lands in the [catch]. *)
Definition forceSync_resume (ok : bool) (key : string) (rest : list string) (w : world) : world :=
  forceSync_loop rest (if ok then removeItem key w else w).

Definition forceSync (w : world) : world :=
  if negb (truthy (userId w)) then w
  else
    let '(w1, c) := _notifySyncListeners Syncing "Syncing..." w in
    match c with
    | Throw => w1
    | Normal => forceSync_loop (localKeys w1) w1
    end.

(** ** Identity changes *)

(** [_startSync]: the subscriptions only feed the page; what remains is the
    timeout that announces the end of the initial sync. *)
Definition _startSync (w : world) : world :=
  if negb (truthy (userId w)) || negb (db w) then w
  else (setTimeout InitialSyncDone 1500 w).2.

(** The observer given to [onAuthStateChanged] in [_init]. *)
Definition onAuthStateChanged (user : option string) (w : world) : world :=
  match user with
  | Some uid =>
      (_notifySyncListeners Syncing "Connecting..." (_startSync (set_userId (Some uid) w))).1
  | None =>
      (_notifySyncListeners Offline "Not connected" (set_userId None w)).1
  end.

(** ** The event loop *)

(** What can happen to the page: a call of one of the public methods, an
    identity change reported by Firebase, or the settling of the promise
    of request [rid].  A listener is taken not to call back into the
    object; the window's [online] and [offline] events, which notify and
    restart the subscriptions, are left out. *)
Inductive event :=
  | CallSaveFormData (collection docId fieldName : string) (value : json)
  | CallForceSync
  | CallAddSyncListener (callback : listener)
  | CallRemoveSyncListener (callback : nat)
  | AuthStateChanged (user : option string)
  | Settled (rid : nat) (ok : bool).

Definition resume (ok : bool) (k : task) (w : world) : world :=
  match k with
  | FlushTask c d f v key => flush_resume ok c d f v key w
  | ForceSyncTask key rest => forceSync_resume ok key rest w
  end.

(** The identity observer exists only when [_init] found [FirebaseCore];
    a promise settles once. *)
Definition step (e : event) (w : world) : world :=
  match e with
  | CallSaveFormData c d f v => saveFormData c d f v w
  | CallForceSync => forceSync w
  | CallAddSyncListener l => addSyncListener l w
  | CallRemoveSyncListener id => removeSyncListener id w
  | AuthStateChanged user => if db w then onAuthStateChanged user w else w
  | Settled rid ok =>
      match awaiting w !! rid with
      | Some k => resume ok k (set_awaiting (delete rid (awaiting w)) w)
      | None => w
      end
  end.

(** Timeouts fire in the order of their due time, and of their creation
    among equals. *)
Definition timer_le (a b : timer) : Prop :=
  (t_due a < t_due b)%N ∨ (t_due a = t_due b ∧ t_id a ≤ t_id b).

#[export] Instance timer_le_dec a b : Decision (timer_le a b).
Proof. unfold timer_le. apply _. Defined.

(** A timeout fires: it leaves the list, the clock has reached its due
    time, and its callback runs up to its first [await]. *)
Definition fire (t : timer) (w : world) : world :=
  let w1 := set_clock (N.max (clock w) (t_due t)) (clearTimeout (t_id t) w) in
  match t_action t with
  | Flush c d f v key => flush_start c d f v key w1
  | InitialSyncDone => (_notifySyncListeners Synced "All changes saved" w1).1
  end.

(** Let time pass until [t].  Neither of the two callbacks sets or clears a
    timeout, so the timeouts that fire are those due by [t] now. *)
Definition advance_to (t : N) (w : world) : world :=
  let due := merge_sort timer_le (filter (λ x, (t_due x ≤ t)%N) (timers w)) in
  let w' := foldl (λ w x, fire x w) w due in
  set_clock (N.max (clock w') t) w'.

(** A trace gives each event the time at which it happens. *)
Fixpoint run (trace : list (N * event)) (w : world) : world :=
  match trace with
  | [] => w
  | (t, e) :: rest => run rest (step e (advance_to t w))
  end.

End DataSync.

Module DocumentManager.

(** ** The upload validator *)

(** A [File] of the browser: [file.name], [file.size] in bytes and
    [file.type], the content type. *)
Record file := File {
  name : string;
  size : N;
  type : string;
}.

Definition MAX_FILE_SIZE : N := 5 * 1024 * 1024.

Definition ALLOWED_TYPES : list string :=
  ["application/pdf"; "image/jpeg"; "image/png"; "image/jpg"].

(** The [Error]s the module throws, one constructor per message. *)
Inductive error :=
  | NoFileSelected
  | FileTooLarge (bytes : N)
  | InvalidFileType
  | FirebaseNotInitialized
  | NotLoggedIn
  | UploadFailed
  | SaveMetadataFailed.

(** [{ valid: true }] or [{ valid: false, error }]. *)
Inductive validation :=
  | Valid
  | Invalid (e : error).

Definition valid (v : validation) : bool :=
  match v with
  | Valid => true
  | Invalid _ => false
  end.

(** [validateFile(file)]; a missing file is [None]. *)
Definition validateFile (file : option file) : validation :=
  match file with
  | None => Invalid NoFileSelected
  | Some f =>
      if (MAX_FILE_SIZE <? size f)%N then Invalid (FileTooLarge (size f))
      else if negb (bool_decide (type f ∈ ALLOWED_TYPES)) then Invalid InvalidFileType
      else Valid
  end.

(** [FirebaseCore] as [uploadDocument] sees it: whether the getters return
    their handles, and [auth.currentUser]. *)
Record firebase := Firebase {
  initialized : bool;
  currentUser : option string;
}.

(** How the remote calls of one upload end: the upload task, the request
    for the download URL, and the write of the metadata document. *)
Record remote := Remote {
  put_ok : bool;
  downloadURL : option string;
  set_ok : bool;
}.

(** The metadata written to [users/{uid}/documents/{docType}]. *)
Record docData := DocData {
  docType : string;
  fileName : string;
  fileUrl : string;
  storagePath : string;
  mimeType : string;
  fileSize : N;
}.

(** What reaches the outside: the remote calls, in order. *)
Inductive effect :=
  | StoragePut (path : string) (f : file)
  | GetDownloadURL (path : string)
  | FirestoreSet (uid docType : string) (data : docData).

Inductive outcome :=
  | Resolved (data : docData)
  | Rejected (e : error).

(** [uploadDocument(file, docType)] at time [now]: how the promise
    settles, the remote calls made, and [localStorage], which the function
    is handed only to show that it hands it back. *)
Definition uploadDocument (file : option file) (docType : string) (fb : firebase)
    (r : remote) (now : N) (storage : gmap string text)
    : outcome * list effect * gmap string text :=
  match validateFile file with
  | Invalid e => (Rejected e, [], storage)
  | Valid =>
      if negb (initialized fb) then (Rejected FirebaseNotInitialized, [], storage)
      else
        match currentUser fb, file with
        | None, _ => (Rejected NotLoggedIn, [], storage)
        | Some _, None => (Rejected NoFileSelected, [], storage) (* not reached: no file is not valid *)
        | Some uid, Some f =>
            let storagePath :=
              "users/" +:+ uid +:+ "/documents/" +:+ docType +:+ "/"
                +:+ pretty now +:+ "_" +:+ name f in
            if negb (put_ok r) then (Rejected UploadFailed, [StoragePut storagePath f], storage)
            else
              match downloadURL r with
              | None =>
                  (Rejected SaveMetadataFailed,
                   [StoragePut storagePath f; GetDownloadURL storagePath], storage)
              | Some url =>
                  let data := DocData docType (name f) url storagePath (type f) (size f) in
                  if set_ok r then
                    (Resolved data,
                     [StoragePut storagePath f; GetDownloadURL storagePath;
                      FirestoreSet uid docType data], storage)
                  else
                    (Rejected SaveMetadataFailed,
                     [StoragePut storagePath f; GetDownloadURL storagePath;
                      FirestoreSet uid docType data], storage)
              end
        end
  end.

End DocumentManager.

Import DataSync.

Module Saves.

(** ** Whole-document saves *)

(** What the promise of an [async] method settles with: [undefined],
    [{ success: true }], [{ success: false, error }], or a rejection. *)
Inductive answer := Undefined | Success | Failure | Thrown.

(** How far a call gets on its own: to its end, or to
    [await FirebaseCore.updateDocument(...)] for request [rid]. *)
Inductive started :=
  | Settles (a : answer)
  | Waits (rid : nat).




(** [saveProgressData] and [saveSettings] are one text with two pairs of
    names: the [localStorage] key and the field of the user document.
    Neither notifies anybody. *)
Definition saveQuietly (localKey field : string) (value : json) (w : world)
    : world * started :=
  if negb (truthy (userId w)) then
    (setItem localKey (JSON_stringify value) w, Settles Undefined)
  else
    let data := <["lastUpdated" := JStr (toISOString (clock w))]> {[field := value]} in
    (set_requests (requests w ++ [Request (user_path w) data]) w, Waits (length (requests w))).

Definition saveQuietly_resume (ok : bool) (localKey : string) (value : json) (w : world)
    : world * answer :=
  if ok then (w, Success) else (setItem localKey (JSON_stringify value) w, Failure).



Definition saveSettings (settings : json) : world → world * started :=
  saveQuietly "settings" "settings" settings.

Definition saveSettings_resume (ok : bool) (settings : json) : world → world * answer :=
  saveQuietly_resume ok "settings" settings.

End Saves.

Module FirebaseCore.

(** ** The Firebase core of [data-sync.js] *)

(** The module variables [app], [auth], [db], [storage] ([None] is
    [null]; an instance is known by a number) and [isFirebaseInitialized]. *)
Record state := State {
  app : option nat;
  auth : option nat;
  db : option nat;
  storage : option nat;
  isFirebaseInitialized : bool;
}.

(** The page before any call. *)
Definition unloaded : state := State None None None None false.

(** What the SDK does on one attempt: each of [firebase.initializeApp],
    [firebase.auth], [firebase.firestore] and [firebase.storage] returns an
    instance or throws ([None]). *)
Record sdk := Sdk {
  sdk_initializeApp : option nat;
  sdk_auth : option nat;
  sdk_firestore : option nat;
  sdk_storage : option nat;
}.

Inductive outcome (A : Type) :=
  | Returned (a : A)
  | Threw.

Arguments Returned {A} a.
Arguments Threw {A}.

(** [{ app, auth, db, storage }]. *)
Definition instances (s : state) : option nat * option nat * option nat * option nat :=
  (app s, auth s, db s, storage s).

(** [initializeFirebase(config)]: the assignments made before a throw
    stay. *)
Definition initializeFirebase (k : sdk) (s : state)
    : state * outcome (option nat * option nat * option nat * option nat) :=
  if isFirebaseInitialized s then (s, Returned (instances s))
  else
    match sdk_initializeApp k with
    | None => (s, Threw)
    | Some a =>
        let s1 := State (Some a) (auth s) (db s) (storage s) false in
        match sdk_auth k with
        | None => (s1, Threw)
        | Some b =>
            let s2 := State (Some a) (Some b) (db s) (storage s) false in
            match sdk_firestore k with
            | None => (s2, Threw)
            | Some c =>
                let s3 := State (Some a) (Some b) (Some c) (storage s) false in
                match sdk_storage k with
                | None => (s3, Threw)
                | Some d =>
                    let s4 := State (Some a) (Some b) (Some c) (Some d) true in
                    (s4, Returned (instances s4))
                end
            end
        end
    end.

(** The three getters: [if (!isFirebaseInitialized || !x) throw ...]. *)
Definition getter (x : option nat) (s : state) : outcome nat :=
  if negb (isFirebaseInitialized s) then Threw
  else match x with
       | None => Threw
       | Some h => Returned h
       end.

Definition getFirebaseAuth (s : state) : outcome nat := getter (auth s) s.

Definition getFirebaseDb (s : state) : outcome nat := getter (db s) s.

Definition getFirebaseStorage (s : state) : outcome nat := getter (storage s) s.

Definition isFirebaseReady (s : state) : bool := isFirebaseInitialized s.

(** A field of a Firestore write: a value, or the sentinel
    [FieldValue.serverTimestamp()]. *)
Inductive fieldValue :=
  | Val (j : json)
  | ServerTimestamp.

(** [updateDocument(documentPath, data)] up to the call of
    [docRef.update]: the database instance, the path and the fields
    handed over, or [None] when the getter throws and the promise is
    rejected without Firestore having been asked. *)
Definition updateDocument (documentPath : string) (data : gmap string json) (s : state)
    : option (nat * string * gmap string fieldValue) :=
  match getFirebaseDb s with
  | Threw => None
  | Returned dbInstance =>
      Some (dbInstance, documentPath, <["updatedAt" := ServerTimestamp]> (Val <$> data))
  end.

End FirebaseCore.

Module DocumentOps.

(** ** Reading, deleting and describing stored documents *)

(** The fields of a metadata document that the module reads; a missing
    field is [None]. *)
Record stored := Stored {
  storagePath : option string;
  fileUrl : option string;
  fileName : option string;
}.

(** How [docRef.get()] ends. *)
Inductive reading :=
  | GetFails
  | Absent
  | Present (d : stored).

(** How the remote calls of one [deleteDocument] end. *)
Record removal := Removal {
  reads : reading;
  blob_deleted : bool;
  doc_deleted : bool;
}.

Inductive failure :=
  | NotInitialized
  | MustBeLoggedIn
  | GetFailed
  | StorageDeleteFailed
  | FirestoreDeleteFailed.

Inductive effect :=
  | FirestoreGet (uid docType : string)
  | StorageDelete (path : string)
  | FirestoreDelete (uid docType : string).

Inductive settled (A : Type) :=
  | Resolved (a : A)
  | Rejected (e : failure).

Arguments Resolved {A} a.
Arguments Rejected {A} e.

(** [getDocument(docType)]: the document, [null] when there is none. *)
Definition getDocument (docType : string) (fb : DocumentManager.firebase) (r : reading)
    : settled (option stored) * list effect :=
  if negb (DocumentManager.initialized fb) then (Rejected NotInitialized, [])
  else
    match DocumentManager.currentUser fb with
    | None => (Rejected MustBeLoggedIn, [])
    | Some uid =>
        match r with
        | GetFails => (Rejected GetFailed, [FirestoreGet uid docType])
        | Absent => (Resolved None, [FirestoreGet uid docType])
        | Present d => (Resolved (Some d), [FirestoreGet uid docType])
        end
    end.

(** [deleteDocument(docType)]: the blob goes first, and only when the
    metadata names one; every failure is thrown on. *)
Definition deleteDocument (docType : string) (fb : DocumentManager.firebase) (r : removal)
    : settled unit * list effect :=
  if negb (DocumentManager.initialized fb) then (Rejected NotInitialized, [])
  else
    match DocumentManager.currentUser fb with
    | None => (Rejected MustBeLoggedIn, [])
    | Some uid =>
        match getDocument docType fb (reads r) with
        | (Rejected e, effs) => (Rejected e, effs)
        | (Resolved docData, effs) =>
            let blob :=
              match docData with
              | Some d => if truthy (storagePath d) then storagePath d else None
              | None => None
              end in
            match blob with
            | Some path =>
                if negb (blob_deleted r) then
                  (Rejected StorageDeleteFailed, effs ++ [StorageDelete path])
                else if negb (doc_deleted r) then
                  (Rejected FirestoreDeleteFailed,
                   effs ++ [StorageDelete path; FirestoreDelete uid docType])
                else (Resolved (), effs ++ [StorageDelete path; FirestoreDelete uid docType])
            | None =>
                if negb (doc_deleted r) then
                  (Rejected FirestoreDeleteFailed, effs ++ [FirestoreDelete uid docType])
                else (Resolved (), effs ++ [FirestoreDelete uid docType])
            end
        end
    end.

(** [(num / den).toFixed(1)] for a whole number [num] that is a double
    and [den] a power of two: the quotient is then exact.  Below 10^21
    [toFixed] takes the nearest tenth, the larger one of two equally
    near, and writes all its digits; from 10^21 on it gives [String] of
    the quotient, which is a whole number there. *)
Definition toFixed1 (num den : N) : string :=
  if (10 ^ 21 * den <=? num)%N then Number_toString (Z.of_N (num / den))
  else
    let tenths := ((20 * num + den) / (2 * den))%N in
    pretty (tenths / 10)%N +:+ "." +:+ pretty (tenths mod 10)%N.

(** [formatFileSize(bytes)] for a size in bytes: a whole number that is a
    double, as every whole number below 2^53 is. *)
Definition formatFileSize (bytes : N) : string :=
  if (bytes =? 0)%N then "Unknown"
  else if (bytes <? 1024)%N then pretty bytes +:+ " B"
  else if (bytes <? 1024 * 1024)%N then toFixed1 bytes 1024 +:+ " KB"
  else toFixed1 bytes (1024 * 1024) +:+ " MB".

End DocumentOps.

(** ** Vocabulary of the properties *)

(** The listeners [forEach] would call: those that are functions. *)
Definition functions (ls : list listener) : list listener :=
  filter (λ l, callable l = true) ls.

(** The log entry of calling [l] with [(st, msg)]. *)
Definition call_of (st : status) (msg : string) (l : listener) : call :=
  (lid l, st, msg).

Definition quiet (st : status) (msg : string) (l : listener) : Prop :=
  raises l st msg = false.

(** The fields that the flush of a change to [fieldName] sends besides
    [lastUpdated]: the field with its value, or none when the name is
    [__proto__], which [{}] takes for its prototype and not for a
    property. *)
Definition sent (fieldName : string) (value : json) : gmap string json :=
  if decide (fieldName = "__proto__") then ∅ else {[fieldName := value]}.

(** What [_saveToLocalStorage] starts from: nothing or the empty string
    under the key (an empty object is taken), or a stored JSON object. *)
Definition startingObject (item : option text) : option (gmap string json) :=
  match item with
  | None | Some (Raw "") => Some ∅
  | Some (Json (JObj o)) => Some o
  | Some _ => None
  end.

(** A listener that never throws, and one that throws on [Error]. *)
Definition calm (id : nat) : listener := Listener id true (λ _ _, false).

Definition faulty (id : nat) : listener :=
  Listener id true (λ st _, bool_decide (st = Error)).

(** A page that has just loaded with [FirebaseCore] present and an empty
    [localStorage]. *)
Definition fresh : world := constructor true ∅.

(** One [forceSync] loop read as sequential code: every awaited write is
    answered before anything else happens, [accepts key] telling whether
    the write for [key] is fulfilled. *)
Fixpoint forceSync_pass (accepts : string → bool) (keys : list string) (w : world) : world :=
  match keys with
  | [] => (_notifySyncListeners Synced "All changes saved" w).1
  | key :: rest =>
      match JSON_parse (localStorage w !! key) with
      | None => forceSync_pass accepts rest w
      | Some data =>
          match remoteField key with
          | Some field =>
              let w1 :=
                set_requests (requests w ++ [Request (user_path w) {[field := data]}]) w in
              forceSync_pass accepts rest (if accepts key then removeItem key w1 else w1)
          | None => forceSync_pass accepts rest (removeItem key w)
          end
      end
  end.

(** The same on the event loop: settle the newest request, if a
    [forceSync] loop waits for it, and do so [n] times. *)
Definition settle_newest (accepts : string → bool) (w : world) : world :=
  let rid := pred (length (requests w)) in
  match awaiting w !! rid with
  | Some (ForceSyncTask key _) => step (Settled rid (accepts key)) w
  | _ => w
  end.

Fixpoint settle_in_turn (accepts : string → bool) (n : nat) (w : world) : world :=
  match n with
  | O => w
  | S n => settle_in_turn accepts n (settle_newest accepts w)
  end.

(** Whether a pass removes the entry [item] stored under [key]: its text
    must parse, and a whole-document key needs its write accepted. *)
Definition removed_by (accepts : string → bool) (item : option text) (key : string) : bool :=
  match JSON_parse item, remoteField key with
  | None, _ => false
  | Some _, Some _ => accepts key
  | Some _, None => true
  end.

(** The remote write a pass issues for [key], if any. *)
Definition write_for (w : world) (key : string) : option request :=
  match JSON_parse (localStorage w !! key), remoteField key with
  | Some data, Some field => Some (Request (user_path w) {[field := data]})
  | _, _ => None
  end.

(** Calls of [saveFormData] for one field, each with its time. *)
Definition changes (c d f : string) (tvs : list (N * json)) : list (N * event) :=
  map (λ tv, (tv.1, CallSaveFormData c d f tv.2)) tvs.

(** Each time lies less than the debounce interval after the one before. *)
Fixpoint rapid (prev : N) (ts : list N) : Prop :=
  match ts with
  | [] => True
  | t :: ts' => (prev ≤ t < prev + writeDebounceMs)%N ∧ rapid t ts'
  end.

(** After the last of a run of calls for one field, made at time [t]
    with value [v]: one timeout is pending, it carries [v], it is due a
    debounce interval after [t], and [pendingWrites] points to it; no
    request has been added since the world [w0] the run started from. *)
Definition armed (c d f : string) (v : json) (t : N) (w0 w : world) : Prop :=
  clock w = t ∧ requests w = requests w0 ∧ userId w = userId w0
  ∧ syncListeners w = syncListeners w0
  ∧ ∃ id, timers w = [Timer id (t + writeDebounceMs)
                        (Flush c d f v (c +:+ "." +:+ d +:+ "." +:+ f))]
          ∧ pendingWrites w !! (c +:+ "." +:+ d +:+ "." +:+ f) = Some id.

(** The Firebase core after a run of initialisation attempts, each with
    what the SDK did on it, and an attempt on which all four SDK calls
    return. *)
Definition after_attempts (ks : list FirebaseCore.sdk) : FirebaseCore.state :=
  foldl (λ s k, (FirebaseCore.initializeFirebase k s).1) FirebaseCore.unloaded ks.

Definition complete (k : FirebaseCore.sdk) : Prop :=
  is_Some (FirebaseCore.sdk_initializeApp k) ∧ is_Some (FirebaseCore.sdk_auth k)
  ∧ is_Some (FirebaseCore.sdk_firestore k) ∧ is_Some (FirebaseCore.sdk_storage k).

(** ** The clock *)

Example toISOString_epoch : toISOString 0 = "1970-01-01T00:00:00.000Z".
Proof. reflexivity. Qed.

Example toISOString_leap_day : toISOString 951782400123 = "2000-02-29T00:00:00.123Z".
Proof. reflexivity. Qed.

Example toISOString_2023 : toISOString 1700000000000 = "2023-11-14T22:13:20.000Z".
Proof. reflexivity. Qed.

Example toISOString_five_digit_year :
  toISOString 253402300800000 = "+010000-01-01T00:00:00.000Z".
Proof. reflexivity. Qed.

(** Facts about one concrete world are settled by running the model. *)
Ltac by_running := vm_compute; first [reflexivity | discriminate | repeat constructor].

(** ** Status notification *)

Lemma forEach_spec st msg ls : ∀ log,
  ∃ called rest,
    functions ls = called ++ rest ∧
    (forEach ls st msg log).1 = log ++ map (call_of st msg) called ∧
    match (forEach ls st msg log).2 with
    | Normal => rest = [] ∧ Forall (quiet st msg) called
    | Throw => ∃ pre l, called = pre ++ [l] ∧ Forall (quiet st msg) pre ∧ raises l st msg = true
    end.
Proof.
  induction ls as [|l ls IH]; intros log; simpl.
  - exists [], []. simpl. rewrite app_nil_r. repeat split; constructor.
  - unfold functions in *. destruct (callable l) eqn:Hc.
    + rewrite filter_cons_True by done.
      destruct (raises l st msg) eqn:Hr; simpl.
      * exists [l], (filter (λ l, callable l = true) ls). repeat split.
        exists [], l. repeat split; [constructor | done].
      * destruct (IH (log ++ [call_of st msg l])) as (called & rest & Hf & Hlog & Hc').
        change (call_of st msg l) with (lid l, st, msg) in Hlog, Hc'.
        exists (l :: called), rest. split; [by rewrite Hf|].
        split; [rewrite Hlog; simpl; by rewrite <- app_assoc|].
        destruct (forEach ls st msg (log ++ [(lid l, st, msg)])).2.
        -- destruct Hc' as [-> Hq]. split; [done|]. by constructor.
        -- destruct Hc' as (pre & l' & -> & Hq & Hr').
           exists (l :: pre), l'. repeat split; [by constructor | done].
    + rewrite filter_cons_False by (rewrite Hc; done). apply IH.
Qed.

(** C8 (as the code has it): a freshly constructed [DataSync] has status
    'synced', whatever the page held and whether or not [FirebaseCore] was
    loaded, and it has notified nobody. *)
Theorem initial_status_is_synced (firebase_loaded : bool) (storage : gmap string text) :
  syncStatus (constructor firebase_loaded storage) = Synced
  ∧ calls (constructor firebase_loaded storage) = [].
Proof. by split. Qed.

(** C8 (as the specification has it) fails: the initial status is not
    'offline'. *)
Lemma initial_status_is_not_offline : syncStatus fresh ≠ Offline.
Proof. discriminate. Qed.

(** C7 (as the code has it): a notification stores the new status and then
    calls the registered functions in registration order, stopping after
    the first one that throws.  If none throws, every one of them has been
    called; if one throws, the exception leaves the notification and the
    functions registered after it are not called. *)
Theorem notification_reaches_listeners_until_one_throws
    (st : status) (msg : string) (w : world) (l : listener) :
  syncListeners (addSyncListener l w) = syncListeners w ++ [l]
  ∧ syncStatus (_notifySyncListeners st msg w).1 = st
  ∧ ∃ called rest,
      functions (syncListeners w) = called ++ rest
      ∧ calls (_notifySyncListeners st msg w).1 = calls w ++ map (call_of st msg) called
      ∧ match (_notifySyncListeners st msg w).2 with
        | Normal => rest = [] ∧ Forall (quiet st msg) called
        | Throw =>
            ∃ pre thrower, called = pre ++ [thrower]
              ∧ Forall (quiet st msg) pre ∧ raises thrower st msg = true
        end.
Proof.
  split; [done|]. unfold _notifySyncListeners.
  pose proof (forEach_spec st msg (syncListeners w) (calls w)) as H.
  simpl. destruct (forEach (syncListeners w) st msg (calls w)) as [log c]; simpl in *.
  split; [done|]. exact H.
Qed.

(** C7 (as the specification has it) fails: with a throwing listener
    registered before a second one, a transition to 'error' calls the
    first and never reaches the second. *)
Lemma throwing_listener_hides_later_ones :
  let w := addSyncListener (calm 2) (addSyncListener (faulty 1) fresh) in
  calls (_notifySyncListeners Error "Sync failed" w).1 = [(1, Error, "Sync failed")]
  ∧ (_notifySyncListeners Error "Sync failed" w).2 = Throw.
Proof. by split. Qed.

(** ** Numerals *)

(** A numeral beyond 2^53 is read as the nearest double, so different
    numerals stand for one number; every whole number below 2^53 is read
    as itself. *)
Example literal_beyond_2_53 :
  literal 9007199254740993 = Some (Number 9007199254740992 I)
  ∧ literal 9007199254740992 = Some (Number 9007199254740992 I)
  ∧ literal 40 = Some (Number 40 I).
Proof. by vm_compute. Qed.

(** A number is the Number value of itself: its exact numeral is read
    back as the number. *)
Lemma nearest_double_number (n : number) : nearest_double (integer n) = integer n.
Proof.
  destruct n as [z Hz]. simpl. unfold nearest_double, is_double in *.
  destruct (Z.leb_spec (Z.log2 (Z.abs z) - 52) 0) as [He|He]; [done|].
  apply orb_prop_elim in Hz as [Hz|Hz].
  - apply Is_true_true, Z.ltb_lt in Hz.
    assert (Hpos : (0 < Z.abs z)%Z).
    { destruct (decide (Z.abs z = 0%Z)) as [E|]; [rewrite E in He; simpl in He|]; lia. }
    assert (Z.log2 (Z.abs z) < 53)%Z; [|lia].
    by apply Z.log2_lt_pow2.
  - apply andb_prop_elim in Hz as [Hz _]. apply Is_true_true, Z.eqb_eq in Hz.
    rewrite Hz.
    assert (Hh : (0 < 2 ^ (Z.log2 (Z.abs z) - 52 - 1))%Z) by (apply Z.pow_pos_nonneg; lia).
    destruct (Z.ltb_spec (2 ^ (Z.log2 (Z.abs z) - 52 - 1)) 0); [lia|].
    destruct (Z.eqb_spec 0 (2 ^ (Z.log2 (Z.abs z) - 52 - 1))); [lia|]. simpl.
    assert (Hp : (0 < 2 ^ (Z.log2 (Z.abs z) - 52))%Z) by (apply Z.pow_pos_nonneg; lia).
    pose proof (Z.div_mod (Z.abs z) (2 ^ (Z.log2 (Z.abs z) - 52))) as Hdm.
    rewrite Hz in Hdm.
    set (p := (2 ^ (Z.log2 (Z.abs z) - 52))%Z) in *.
    set (q := (Z.abs z / p)%Z) in *.
    replace (q * p)%Z with (Z.abs z) by lia.
    rewrite Z.mul_comm. apply Z.abs_sgn.
Qed.

Lemma literal_number (n : number) : literal (integer n) = Some n.
Proof.
  unfold literal. destruct n as [z Hz].
  pose proof (nearest_double_number (Number z Hz)) as E. simpl in *.
  destruct (decide _) as [H|H].
  - f_equal. revert H. rewrite E. intros H. f_equal. apply proof_irrel.
  - by rewrite E in H.
Qed.

(** The digits [String] writes for a number are read back as that number,
    also where they are not its exact numeral. *)
Example Number_toString_read_back :
  Number_toString (2 ^ 80) = "1.2089258196146292e+24"
  ∧ literal 1208925819614629200000000 = Some (Number (2 ^ 80) I)
  ∧ Number_toString (2 ^ 69) = "590295810358705700000"
  ∧ literal 590295810358705700000 = Some (Number (2 ^ 69) I).
Proof. by vm_compute. Qed.

(** ** Property assignment *)

Lemma assign_stored (o : gmap string json) (f : string) (v : json) :
  f ≠ "__proto__" ∨ is_Some (o !! f) → assign o f v = <[f := v]> o.
Proof.
  unfold assign. intros [Hf|[x Hx]].
  - destruct (o !! f); [done|]. by destruct (String.eqb_spec f "__proto__").
  - by rewrite Hx.
Qed.

Lemma assign_inherited (o : gmap string json) (v : json) :
  o !! "__proto__" = None → assign o "__proto__" v = o.
Proof. unfold assign. by intros ->. Qed.

Lemma assign_empty (f : string) (v : json) : assign ∅ f v = sent f v.
Proof.
  unfold sent. destruct (decide (f = "__proto__")) as [->|Hf].
  - by apply assign_inherited.
  - rewrite assign_stored by (by left). apply insert_empty.
Qed.





(** The object [_saveToLocalStorage] writes back, property by property. *)
Lemma assign_then_stamp (o : gmap string json) (f : string) (v stamp : json) :
  let o' := <["_lastUpdated" := stamp]> (assign o f v) in
  o' !! "_lastUpdated" = Some stamp
  ∧ (f ≠ "_lastUpdated" → f ≠ "__proto__" ∨ is_Some (o !! f) → o' !! f = Some v)
  ∧ (f = "__proto__" → o !! f = None → o' !! f = None)
  ∧ (∀ g, g ≠ f → g ≠ "_lastUpdated" → o' !! g = o !! g).
Proof.
  intros o'. subst o'. split; [apply lookup_insert_eq|]. split; [|split].
  - intros Hf Hs. rewrite lookup_insert_ne by done.
    rewrite assign_stored by done. apply lookup_insert_eq.
  - intros -> Ho. rewrite lookup_insert_ne by done. by rewrite assign_inherited.
  - intros g Hg Hg'. rewrite lookup_insert_ne by done.
    destruct (decide (f = "__proto__")) as [->|Hf].
    + destruct (o !! "__proto__") as [x|] eqn:Hx.
      * rewrite assign_stored by (right; by rewrite Hx). by rewrite lookup_insert_ne.
      * by rewrite assign_inherited.
    + rewrite assign_stored by (by left). by rewrite lookup_insert_ne.
Qed.

(** ** The local fallback *)

Lemma startingObject_parsed (item : option text) (o : gmap string json) :
  startingObject item = Some o →
  (if truthy_item item then JSON_parse item else Some (JObj ∅)) = Some (JObj o).
Proof.
  destruct item as [[[]|[|]]|]; simpl; intros H; by simplify_eq.
Qed.

Lemma saveToLocalStorage_object (c d f : string) (v : json) (w : world) (o : gmap string json) :
  startingObject (localStorage w !! (c +:+ "_" +:+ d)) = Some o →
  _saveToLocalStorage c d f v w =
    (setItem (c +:+ "_" +:+ d)
       (Json (JObj (<["_lastUpdated" := JStr (toISOString (clock w))]> (assign o f v)))) w,
     Normal).
Proof.
  intros H. unfold _saveToLocalStorage. rewrite (startingObject_parsed _ _ H).
  cbn [set_property]. by rewrite (assign_stored _ "_lastUpdated") by (by left).
Qed.

(** C10 (as the code has it): when [localStorage] holds a JSON object
    under [collection_docId], [_saveToLocalStorage] stores under that key
    the object it gets by [data[fieldName] = value] followed by
    [data._lastUpdated = now].  That object holds the current time under
    [_lastUpdated].  It holds the value under [fieldName] unless the name
    is [_lastUpdated], where the time stamp replaces the value, or is
    [__proto__] while the object has no own property of that name, where
    nothing is written.  Every other property of the object and every
    other key of the storage is as before, and nothing else in the world
    changes. *)
Theorem saveToLocalStorage_changes_one_field
    (c d f : string) (v : json) (w : world) (o : gmap string json) :
  localStorage w !! (c +:+ "_" +:+ d) = Some (Json (JObj o)) →
  let w' := (_saveToLocalStorage c d f v w).1 in
  (_saveToLocalStorage c d f v w).2 = Normal
  ∧ w' = set_localStorage (localStorage w') w
  ∧ (∀ k, k ≠ c +:+ "_" +:+ d → localStorage w' !! k = localStorage w !! k)
  ∧ ∃ o', localStorage w' !! (c +:+ "_" +:+ d) = Some (Json (JObj o'))
          ∧ o' !! "_lastUpdated" = Some (JStr (toISOString (clock w)))
          ∧ (f ≠ "_lastUpdated" → f ≠ "__proto__" ∨ is_Some (o !! f) → o' !! f = Some v)
          ∧ (f = "__proto__" → o !! f = None → o' !! f = None)
          ∧ (∀ g, g ≠ f → g ≠ "_lastUpdated" → o' !! g = o !! g).
Proof.
  intros H w'. subst w'.
  rewrite (saveToLocalStorage_object c d f v w o) by (by rewrite H).
  simpl. split; [done|]. split; [done|].
  split; [intros k Hk; by rewrite lookup_insert_ne|].
  eexists. split; [apply lookup_insert_eq|]. apply assign_then_stamp.
Qed.

Lemma saveToLocalStorage_changes_one_field_witness :
  let w := setItem "users_u1" (Json (JObj {["lastName" := JStr "Lee"]})) fresh in
  let w' := (_saveToLocalStorage "users" "u1" "firstName" (JStr "Ana") w).1 in
  localStorage w !! "users_u1" = Some (Json (JObj {["lastName" := JStr "Lee"]}))
  ∧ ∃ o', localStorage w' !! "users_u1" = Some (Json (JObj o'))
          ∧ o' !! "firstName" = Some (JStr "Ana")
          ∧ o' !! "lastName" = Some (JStr "Lee").
Proof.
  intros w w'. split; [reflexivity|].
  destruct (saveToLocalStorage_changes_one_field "users" "u1" "firstName" (JStr "Ana") w
              {["lastName" := JStr "Lee"]} eq_refl)
    as (_ & _ & _ & o' & Hl & _ & Hf & _ & Hg).
  exists o'. split; [exact Hl|]. split.
  - apply Hf; [discriminate | left; discriminate].
  - refine (eq_trans (Hg "lastName" _ _) _); [discriminate..|reflexivity].
Defined.

(** C10 (as the claim has it) fails: a value written to the field
    [_lastUpdated] is replaced by the time stamp, and a value written to
    the field [__proto__] of an object without such a property is not
    stored at all; in both cases the stored object holds the value
    nowhere. *)
Lemma saveToLocalStorage_does_not_store_every_field :
  let w := setItem "users_u1" (Json (JObj {["lastName" := JStr "Lee"]})) fresh in
  let after f := localStorage (_saveToLocalStorage "users" "u1" f (JStr "Ana") w).1
                   !! "users_u1" in
  after "_lastUpdated" =
    Some (Json (JObj (<["_lastUpdated" := JStr "1970-01-01T00:00:00.000Z"]>
                        {["lastName" := JStr "Lee"]})))
  ∧ after "__proto__" =
      Some (Json (JObj (<["_lastUpdated" := JStr "1970-01-01T00:00:00.000Z"]>
                          {["lastName" := JStr "Lee"]}))).
Proof. by vm_compute. Qed.

(** C4 (as the code has it): a field change recorded while nobody is
    signed in, when [localStorage] holds nothing, the empty string or a
    JSON object under [collection_docId], only rewrites that slot.  No
    remote write is issued, no timeout is set, the status stays and no
    listener is called.  The object in the slot gets a fresh
    [_lastUpdated] and, under [fieldName], exactly the value passed,
    unless the name is [_lastUpdated] (the time stamp replaces the value)
    or is [__proto__] while the object has no own property of that name
    (nothing is written); its other properties are as before. *)
Theorem unauthenticated_change_is_stored_locally
    (c d f : string) (v : json) (w : world) (o : gmap string json) :
  truthy (userId w) = false →
  startingObject (localStorage w !! (c +:+ "_" +:+ d)) = Some o →
  let w' := saveFormData c d f v w in
  requests w' = requests w ∧ awaiting w' = awaiting w
  ∧ timers w' = timers w ∧ pendingWrites w' = pendingWrites w
  ∧ syncStatus w' = syncStatus w ∧ calls w' = calls w
  ∧ ∃ o', w' = setItem (c +:+ "_" +:+ d) (Json (JObj o')) w
          ∧ o' !! "_lastUpdated" = Some (JStr (toISOString (clock w)))
          ∧ (f ≠ "_lastUpdated" → f ≠ "__proto__" ∨ is_Some (o !! f) → o' !! f = Some v)
          ∧ (f = "__proto__" → o !! f = None → o' !! f = None)
          ∧ (∀ g, g ≠ f → g ≠ "_lastUpdated" → o' !! g = o !! g).
Proof.
  intros Hu Ho w'. subst w'. unfold saveFormData. rewrite Hu. simpl.
  rewrite (saveToLocalStorage_object c d f v w o Ho). simpl.
  repeat (split; [done|]).
  eexists. split; [reflexivity|]. apply assign_then_stamp.
Qed.

Lemma unauthenticated_change_is_stored_locally_witness :
  let w' := saveFormData "users" "u1" "firstName" (JStr "Ana") fresh in
  truthy (userId fresh) = false
  ∧ startingObject (localStorage fresh !! "users_u1") = Some ∅
  ∧ requests w' = [] ∧ timers w' = [] ∧ syncStatus w' = Synced
  ∧ ∃ o', localStorage w' !! "users_u1" = Some (Json (JObj o'))
          ∧ o' !! "firstName" = Some (JStr "Ana")
          ∧ o' !! "_lastUpdated" = Some (JStr "1970-01-01T00:00:00.000Z").
Proof.
  intros w'.
  destruct (unauthenticated_change_is_stored_locally "users" "u1" "firstName" (JStr "Ana")
              fresh ∅ eq_refl eq_refl)
    as (Hr & _ & Ht & _ & Hs & _ & o' & Hw & Hl & Hf & _).
  split; [reflexivity|]. split; [reflexivity|].
  split; [exact Hr|]. split; [exact Ht|]. split; [exact Hs|].
  exists o'. split; [|split].
  - subst w'. rewrite Hw. apply lookup_insert_eq.
  - apply Hf; [discriminate | left; discriminate].
  - exact Hl.
Defined.

(** C4 (as the specification has it) fails: after the specification's own
    scenario the storage has nothing under [users|u1|firstName]; the value
    sits in the object stored under [users_u1]. *)
Lemma unauthenticated_change_is_not_under_the_write_key :
  let w' := saveFormData "users" "u1" "firstName" (JStr "Ana") fresh in
  localStorage w' !! "users|u1|firstName" = None
  ∧ dom (localStorage w') = {["users_u1"]}.
Proof. by vm_compute. Qed.

(** ** Failed flushes *)

Lemma forEach_quiet (st : status) (msg : string) (ls : list listener) : ∀ log,
  Forall (quiet st msg) (functions ls) →
  forEach ls st msg log = (log ++ map (call_of st msg) (functions ls), Normal).
Proof.
  unfold functions.
  induction ls as [|l ls IH]; intros log H; simpl.
  - by rewrite app_nil_r.
  - destruct (callable l) eqn:Hc.
    + rewrite filter_cons_True in H |- * by done.
      apply Forall_cons in H as [Hq H]. unfold quiet in Hq. rewrite Hq.
      rewrite IH by done. simpl. by rewrite <- app_assoc.
    + rewrite filter_cons_False in H |- * by (rewrite Hc; done). by apply IH.
Qed.

Lemma notify_quiet (st : status) (msg : string) (w : world) :
  Forall (quiet st msg) (functions (syncListeners w)) →
  _notifySyncListeners st msg w =
    (set_calls (calls w ++ map (call_of st msg) (functions (syncListeners w)))
       (set_syncStatus st w), Normal).
Proof.
  intros H. unfold _notifySyncListeners. simpl. by rewrite forEach_quiet.
Qed.

(** The timeout callback parks the value it captured: firing the timeout
    of a [Flush] issues one request carrying that value and leaves a
    [FlushTask] with the same value waiting for it. *)
Lemma flush_parks_its_value (id : nat) (due : N) (c d f : string) (v : json) (key : string)
    (w : world) :
  let w' := fire (Timer id due (Flush c d f v key)) w in
  requests w' =
    requests w ++ [Request (user_path w)
                     (<["lastUpdated" := JStr (toISOString (clock w'))]> (sent f v))]
  ∧ awaiting w' !! length (requests w) = Some (FlushTask c d f v key).
Proof.
  simpl. unfold fire, flush_start, await_updateDocument. simpl. rewrite assign_empty.
  split; [done|]. apply lookup_insert_eq.
Qed.




(** ** [forceSync] and what is in flight *)

Lemma notify_set_awaiting (st : status) (msg : string) (a : gmap nat task) (w : world) :
  _notifySyncListeners st msg (set_awaiting a w) =
    (set_awaiting a (_notifySyncListeners st msg w).1, (_notifySyncListeners st msg w).2).
Proof.
  unfold _notifySyncListeners. simpl.
  by destruct (forEach (syncListeners w) st msg (calls w)).
Qed.

Lemma forceSync_loop_set_awaiting (keys : list string) : ∀ (a : gmap nat task) (w : world),
  forceSync_loop keys (set_awaiting a w) =
    set_awaiting (awaiting (forceSync_loop keys (set_awaiting ∅ w)) ∪ a)
      (forceSync_loop keys (set_awaiting ∅ w)).
Proof.
  induction keys as [|key rest IH]; intros a w; simpl.
  - rewrite !notify_set_awaiting. simpl. by rewrite (left_id_L ∅ (∪)).
  - destruct (JSON_parse (localStorage w !! key)) as [data|]; [|apply IH].
    destruct (remoteField key) as [field|].
    + unfold await_updateDocument. simpl.
      by rewrite <- insert_union_l, (left_id_L ∅ (∪)).
    + apply (IH a (removeItem key w)).
Qed.

(** C6 (as the code has it): [forceSync] has no in-progress flag.  A call
    made while earlier calls are in flight ([a], the parked tasks) runs,
    up to its first [await] (to its end when it never waits), the very
    statements it would run with nothing in flight, and leaves the parked
    tasks where they are.  In particular, when the user is signed in, no
    registered function throws on 'syncing', and the first local key is
    one of the three whole-document keys with parseable content, the call
    issues a remote write for it and waits, whatever is in flight. *)
Theorem forceSync_has_no_reentrancy_guard (w : world) :
  (∀ a : gmap nat task,
     forceSync (set_awaiting a w) =
       set_awaiting (awaiting (forceSync (set_awaiting ∅ w)) ∪ a)
         (forceSync (set_awaiting ∅ w)))
  ∧ (∀ key rest field data,
       truthy (userId w) = true →
       Forall (quiet Syncing "Syncing...") (functions (syncListeners w)) →
       localKeys w = key :: rest →
       remoteField key = Some field →
       JSON_parse (localStorage w !! key) = Some data →
       requests (forceSync w) = requests w ++ [Request (user_path w) {[field := data]}]
       ∧ awaiting (forceSync w) = <[length (requests w) := ForceSyncTask key rest]> (awaiting w)).
Proof.
  split.
  - intros a. unfold forceSync. simpl.
    destruct (truthy (userId w)); simpl.
    + rewrite !notify_set_awaiting.
      destruct (_notifySyncListeners Syncing "Syncing..." w) as [w1 [|]] eqn:Hn; simpl.
      * apply forceSync_loop_set_awaiting.
      * by rewrite (left_id_L ∅ (∪)).
    + by rewrite (left_id_L ∅ (∪)).
  - intros key rest field data Hu Hq Hk Hf Hp. unfold forceSync. rewrite Hu. simpl.
    rewrite notify_quiet by done.
    change (localKeys (set_calls _ (set_syncStatus Syncing w))) with (localKeys w).
    rewrite Hk. simpl. rewrite Hp, Hf. done.
Qed.

Lemma forceSync_has_no_reentrancy_guard_witness :
  let w := run [(0%N, AuthStateChanged (Some "u1")); (10%N, CallForceSync)]
             (constructor true {["formData" := Json (JObj {["firstName" := JStr "Ana"]})]}) in
  awaiting w = {[0 := ForceSyncTask "formData" []]}
  ∧ requests (forceSync w) =
      requests w ++ [Request "users/u1" {["forms" := JObj {["firstName" := JStr "Ana"]}]}].
Proof.
  intros w. split; [vm_compute; reflexivity|].
  refine (proj1 (proj2 (forceSync_has_no_reentrancy_guard w) "formData" [] "forms"
                   (JObj {["firstName" := JStr "Ana"]}) _ _ _ _ _)).
  - by_running.
  - by_running.
  - by_running.
  - reflexivity.
  - by_running.
Defined.

(** C6 (as the specification has it) fails: a second [forceSync] called
    while the first waits for its remote write issues a remote write of
    its own, and two passes are then in flight. *)
Lemma second_forceSync_writes_again :
  let w := run [(0%N, AuthStateChanged (Some "u1")); (10%N, CallForceSync)]
             (constructor true {["formData" := Json (JObj {["firstName" := JStr "Ana"]})]}) in
  let w' := step CallForceSync w in
  length (requests w) = 1 ∧ size (awaiting w) = 1
  ∧ length (requests w') = 2 ∧ size (awaiting w') = 2
  ∧ requests w' !! 1 = Some (Request "users/u1" {["forms" := JObj {["firstName" := JStr "Ana"]}]}).
Proof. by vm_compute. Qed.

(** ** Upload validation *)

(** C9: [validateFile] answers [valid: true] exactly when a file is
    present, is at most 5 MB and has one of the four allowed content
    types; for any other file [uploadDocument] rejects with the
    validation error without a single remote call, and [localStorage] is
    what it was. *)
Theorem invalid_file_is_rejected_before_any_write
    (file : option DocumentManager.file) (docType : string)
    (fb : DocumentManager.firebase) (r : DocumentManager.remote) (now : N)
    (storage : gmap string text) :
  let acceptable :=
    ∃ f, file = Some f
         ∧ (DocumentManager.size f ≤ 5 * 1024 * 1024)%N
         ∧ DocumentManager.type f ∈ ["application/pdf"; "image/jpeg"; "image/png"; "image/jpg"] in
  (DocumentManager.valid (DocumentManager.validateFile file) = true ↔ acceptable)
  ∧ (¬ acceptable →
     ∃ e, DocumentManager.validateFile file = DocumentManager.Invalid e
          ∧ DocumentManager.uploadDocument file docType fb r now storage
            = (DocumentManager.Rejected e, [], storage)).
Proof.
  intros acceptable.
  assert (Hv : DocumentManager.valid (DocumentManager.validateFile file) = true ↔ acceptable).
  { subst acceptable. unfold DocumentManager.validateFile.
    destruct file as [f|]; simpl.
    - unfold DocumentManager.MAX_FILE_SIZE, DocumentManager.ALLOWED_TYPES.
      destruct (N.ltb_spec (5 * 1024 * 1024) (DocumentManager.size f)) as [Hlt|Hle]; simpl.
      + split; [done|]. intros (f' & [= <-] & Hs & _). lia.
      + case_bool_decide as Ht; simpl.
        * split; [|done]. intros _. by exists f.
        * split; [done|]. intros (f' & [= <-] & _ & Ht'). done.
    - split; [done|]. by intros (f & ? & _). }
  split; [exact Hv|].
  intros Hn. unfold DocumentManager.uploadDocument.
  destruct (DocumentManager.validateFile file) as [|e] eqn:He.
  - exfalso. apply Hn, Hv. done.
  - by exists e.
Qed.

Lemma invalid_file_is_rejected_before_any_write_witness :
  let big := DocumentManager.File "scan.pdf" 5242881 "application/pdf" in
  DocumentManager.uploadDocument (Some big) "passport"
    (DocumentManager.Firebase true (Some "u1")) (DocumentManager.Remote true (Some "url") true)
    1700000000000 ∅
  = (DocumentManager.Rejected (DocumentManager.FileTooLarge 5242881), [], ∅).
Proof.
  intros big.
  destruct (proj2 (invalid_file_is_rejected_before_any_write (Some big) "passport"
                     (DocumentManager.Firebase true (Some "u1"))
                     (DocumentManager.Remote true (Some "url") true) 1700000000000 ∅))
    as (e & He & Hu).
  - intros (f & [= <-] & Hs & _). vm_compute in Hs. by apply Hs.
  - injection He as <-. exact Hu.
Defined.

(** ** Where the code departs from its own intent *)

(** C1, at a failing input: user [u1] is signed in, [localStorage] holds
    one whole-form entry under [formData], and the remote write of the
    pass is rejected.  The entry stays (no deletion, one entry left), yet
    the pass ends by announcing 'synced', "All changes saved". *)
Theorem forceSync_announces_synced_after_a_rejection :
  let w0 := run [(0%N, CallAddSyncListener (calm 1)); (0%N, AuthStateChanged (Some "u1"))]
              (constructor true {["formData" := Json (JObj {["firstName" := JStr "Ana"]})]}) in
  let w := run [(10%N, CallForceSync); (200%N, Settled 0 false)] w0 in
  requests w = [Request "users/u1" {["forms" := JObj {["firstName" := JStr "Ana"]}]}]
  ∧ awaiting w = ∅
  ∧ localStorage w = {["formData" := Json (JObj {["firstName" := JStr "Ana"]})]}
  ∧ syncStatus w = Synced
  ∧ calls w = [(1, Syncing, "Connecting..."); (1, Syncing, "Syncing...");
               (1, Synced, "All changes saved")].
Proof. by vm_compute. Qed.

(** C2, at a failing input: a field change recorded while signed out
    lands in [localStorage] under [forms_u1]; after sign-in, [forceSync]
    removes that entry without having issued any remote write. *)
Theorem forceSync_drops_a_field_entry_unsent :
  let w1 := run [(0%N, CallSaveFormData "forms" "u1" "firstName" (JStr "Ana"))] fresh in
  let w := run [(100%N, AuthStateChanged (Some "u1")); (200%N, CallForceSync)] w1 in
  localStorage w1 =
    {["forms_u1" := Json (JObj (<["_lastUpdated" := JStr "1970-01-01T00:00:00.000Z"]>
                                  {["firstName" := JStr "Ana"]}))]}
  ∧ localStorage w = ∅
  ∧ requests w = []
  ∧ syncStatus w = Synced.
Proof. by vm_compute. Qed.

(** C3, at a failing input: while the flush of an earlier value "A" waits
    for the remote store, the same field is set to "B" at 600 ms and to
    "C" at 800 ms, and the write of "A" is confirmed at 700 ms.  The
    confirmation runs [pendingWrites.delete(key)], which forgets the
    timeout of "B"; the call for "C" therefore clears nothing, and both
    "B" and "C" are written remotely. *)
Theorem rapid_changes_flush_twice_behind_a_pending_flush :
  let w := advance_to 2000
             (run [(0%N, AuthStateChanged (Some "u1"));
                   (0%N, CallSaveFormData "forms" "u1" "firstName" (JStr "A"));
                   (600%N, CallSaveFormData "forms" "u1" "firstName" (JStr "B"));
                   (700%N, Settled 0 true);
                   (800%N, CallSaveFormData "forms" "u1" "firstName" (JStr "C"))] fresh) in
  requests w =
    [Request "users/u1" (<["lastUpdated" := JStr "1970-01-01T00:00:00.500Z"]>
                           {["firstName" := JStr "A"]});
     Request "users/u1" (<["lastUpdated" := JStr "1970-01-01T00:00:01.100Z"]>
                           {["firstName" := JStr "B"]});
     Request "users/u1" (<["lastUpdated" := JStr "1970-01-01T00:00:01.300Z"]>
                           {["firstName" := JStr "C"]})]
  ∧ timers w = [].
Proof. by vm_compute. Qed.

(** ** A [forceSync] pass that nothing interrupts *)

Lemma notify_frame (st : status) (msg : string) (w : world) :
  let w' := (_notifySyncListeners st msg w).1 in
  syncStatus w' = st ∧ localStorage w' = localStorage w ∧ requests w' = requests w
  ∧ awaiting w' = awaiting w ∧ timers w' = timers w ∧ pendingWrites w' = pendingWrites w
  ∧ userId w' = userId w ∧ syncListeners w' = syncListeners w ∧ clock w' = clock w.
Proof.
  unfold _notifySyncListeners. simpl.
  by destruct (forEach (syncListeners w) st msg (calls w)).
Qed.

Lemma forceSync_pass_awaiting (accepts : string → bool) (keys : list string) : ∀ w,
  awaiting (forceSync_pass accepts keys w) = awaiting w.
Proof.
  induction keys as [|key rest IH]; intros w; simpl.
  - apply notify_frame.
  - destruct (JSON_parse (localStorage w !! key)); [|apply IH].
    destruct (remoteField key); rewrite IH; by destruct (accepts key).
Qed.

Lemma settle_newest_idle (accepts : string → bool) (w : world) :
  awaiting w = ∅ → settle_newest accepts w = w.
Proof. intros H. unfold settle_newest. by rewrite H, lookup_empty. Qed.

Lemma settle_in_turn_S (accepts : string → bool) (n : nat) : ∀ w,
  settle_in_turn accepts (S n) w = settle_newest accepts (settle_in_turn accepts n w).
Proof.
  induction n as [|n IH]; intros w; [done|].
  change (settle_in_turn accepts (S (S n)) w)
    with (settle_in_turn accepts (S n) (settle_newest accepts w)).
  by rewrite IH.
Qed.

Lemma set_awaiting_id (w : world) (a : gmap nat task) :
  awaiting w = a → set_awaiting a w = w.
Proof. destruct w; simpl; by intros ->. Qed.

(** Settling the writes of a loop one after the other, with nothing in
    flight before, is the sequential reading of the loop. *)
Lemma forceSync_loop_settled (accepts : string → bool) (keys : list string) : ∀ w,
  awaiting w = ∅ →
  settle_in_turn accepts (length keys) (forceSync_loop keys w) = forceSync_pass accepts keys w.
Proof.
  induction keys as [|key rest IH]; intros w Ha; [done|].
  assert (Hidle : ∀ w', awaiting w' = ∅ →
            settle_in_turn accepts (S (length rest)) (forceSync_loop rest w')
            = forceSync_pass accepts rest w').
  { intros w' Ha'. rewrite settle_in_turn_S, IH by done.
    apply settle_newest_idle. by rewrite forceSync_pass_awaiting. }
  simpl length. cbn [forceSync_loop forceSync_pass].
  destruct (JSON_parse (localStorage w !! key)) as [data|]; [|by apply Hidle].
  destruct (remoteField key) as [field|]; [|by apply Hidle].
  cbn [settle_in_turn]. unfold settle_newest, await_updateDocument.
  cbn [requests awaiting set_awaiting set_requests].
  rewrite length_app, Nat.add_1_r. cbn [Init.Nat.pred]. rewrite lookup_insert_eq.
  cbn [step awaiting set_awaiting set_requests]. rewrite lookup_insert_eq.
  rewrite Ha, delete_insert_eq, delete_empty.
  cbn [resume]. unfold forceSync_resume.
  rewrite <- IH by (by destruct (accepts key)).
  f_equal. f_equal. destruct w; simpl in *; subst; by destruct (accepts key).
Qed.

Lemma forceSync_pass_cons (accepts : string → bool) (key : string) (rest : list string)
    (w : world) :
  ∃ w', forceSync_pass accepts (key :: rest) w = forceSync_pass accepts rest w'
        ∧ localStorage w' =
            (if removed_by accepts (localStorage w !! key) key
             then delete key (localStorage w) else localStorage w)
        ∧ requests w' = requests w ++ option_list (write_for w key)
        ∧ userId w' = userId w.
Proof.
  unfold removed_by, write_for, user_path. cbn [forceSync_pass].
  destruct (JSON_parse (localStorage w !! key)) as [data|].
  - destruct (remoteField key) as [field|].
    + destruct (accepts key); eexists; (split; [reflexivity|]); by simpl.
    + eexists; (split; [reflexivity|]); simpl. by rewrite app_nil_r.
  - exists w. simpl. by rewrite app_nil_r.
Qed.

Lemma forceSync_pass_status (accepts : string → bool) (keys : list string) : ∀ w,
  syncStatus (forceSync_pass accepts keys w) = Synced.
Proof.
  induction keys as [|key rest IH]; intros w.
  - apply notify_frame.
  - destruct (forceSync_pass_cons accepts key rest w) as (w' & -> & _). apply IH.
Qed.

Lemma forceSync_pass_storage (accepts : string → bool) (keys : list string) : ∀ w k,
  localStorage (forceSync_pass accepts keys w) !! k =
    if bool_decide (k ∈ keys) && removed_by accepts (localStorage w !! k) k
    then None else localStorage w !! k.
Proof.
  induction keys as [|key rest IH]; intros w k.
  - simpl. by destruct (notify_frame Synced "All changes saved" w) as (_ & -> & _).
  - destruct (forceSync_pass_cons accepts key rest w) as (w' & -> & Hs & _).
    rewrite IH, Hs. destruct (decide (k = key)) as [->|Hne].
    + rewrite (bool_decide_eq_true_2 (key ∈ key :: rest)) by left. simpl.
      destruct (removed_by accepts (localStorage w !! key) key) eqn:Hr.
      * rewrite lookup_delete_eq. by destruct (_ && _).
      * rewrite Hr. by rewrite andb_false_r.
    + assert (Hin : bool_decide (k ∈ key :: rest) = bool_decide (k ∈ rest)).
      { apply bool_decide_ext. rewrite elem_of_cons. split; [by intros [?|?] | by right]. }
      rewrite Hin.
      assert (Hk : (if removed_by accepts (localStorage w !! key) key
                    then delete key (localStorage w) else localStorage w) !! k
                   = localStorage w !! k).
      { destruct (removed_by _ _ key); [by rewrite lookup_delete_ne|done]. }
      by rewrite Hk.
Qed.

Lemma forceSync_pass_requests (accepts : string → bool) (keys : list string) : ∀ w,
  NoDup keys →
  requests (forceSync_pass accepts keys w) = requests w ++ omap (write_for w) keys.
Proof.
  induction keys as [|key rest IH]; intros w Hnd.
  - simpl. destruct (notify_frame Synced "All changes saved" w) as (_ & _ & -> & _).
    by rewrite app_nil_r.
  - apply NoDup_cons in Hnd as [Hnotin Hnd].
    destruct (forceSync_pass_cons accepts key rest w) as (w' & -> & Hs & Hr & Hu).
    rewrite IH, Hr by done. rewrite <- app_assoc. f_equal.
    assert (Hext : omap (write_for w') rest = omap (write_for w) rest).
    { apply list_omap_ext. apply Forall_Forall2_diag, Forall_forall. intros k Hk.
      unfold write_for, user_path. rewrite Hs, Hu.
      assert (k ≠ key) by (intros ->; done).
      destruct (removed_by _ _ key); [by rewrite lookup_delete_ne|done]. }
    rewrite Hext. simpl. by destruct (write_for w key).
Qed.

Lemma localKeys_NoDup (w : world) : NoDup (localKeys w).
Proof. apply NoDup_filter, NoDup_fst_map_to_list. Qed.

Lemma elem_of_localKeys (w : world) (k : string) :
  k ∈ localKeys w ↔ isLocalKey k = true ∧ is_Some (localStorage w !! k).
Proof.
  unfold localKeys. rewrite list_elem_of_filter, list_elem_of_fmap.
  split.
  - intros [Hk ([k' x] & -> & Hin)]. split; [done|].
    apply elem_of_map_to_list in Hin. by exists x.
  - intros [Hk [x Hx]]. split; [done|]. exists (k, x). split; [done|].
    by apply elem_of_map_to_list.
Qed.

(** X2: a [forceSync] call with nothing in flight, each of its writes answered
    in turn by [accepts], when the user is signed in and no registered
    function throws on 'syncing': the writes issued are those of the
    whole-document keys with parseable text; an entry is gone afterwards
    exactly when its key is a local key, its text parses and, for a
    whole-document key, its write was accepted (entries under the prefix
    keys go without a write); and the status ends as 'synced' whatever
    was rejected. *)
Theorem forceSync_uninterrupted_outcome (accepts : string → bool) (w : world) :
  truthy (userId w) = true →
  Forall (quiet Syncing "Syncing...") (functions (syncListeners w)) →
  awaiting w = ∅ →
  let w' := settle_in_turn accepts (length (localKeys w)) (forceSync w) in
  syncStatus w' = Synced
  ∧ awaiting w' = ∅
  ∧ requests w' = requests w ++ omap (write_for w) (localKeys w)
  ∧ ∀ k, localStorage w' !! k =
           if isLocalKey k && removed_by accepts (localStorage w !! k) k
           then None else localStorage w !! k.
Proof.
  intros Hu Hq Ha w'. subst w'. unfold forceSync. rewrite Hu. simpl negb. cbv iota.
  rewrite notify_quiet by done.
  set (w1 := set_calls _ (set_syncStatus Syncing w)).
  change (localKeys w1) with (localKeys w).
  rewrite forceSync_loop_settled by done.
  split; [apply forceSync_pass_status|].
  split; [by rewrite forceSync_pass_awaiting|].
  split; [by rewrite forceSync_pass_requests by apply localKeys_NoDup|].
  intros k. rewrite forceSync_pass_storage.
  change (localStorage w1) with (localStorage w).
  destruct (localStorage w !! k) as [x|] eqn:Hk.
  - assert (Hin : bool_decide (k ∈ localKeys w) = isLocalKey k).
    { destruct (isLocalKey k) eqn:Hl.
      - apply bool_decide_eq_true_2, elem_of_localKeys. by rewrite Hk.
      - apply bool_decide_eq_false_2. rewrite elem_of_localKeys. intros [? _]. congruence. }
    by rewrite Hin.
  - by destruct (_ && _), (_ && _).
Qed.

Lemma forceSync_uninterrupted_outcome_witness :
  let w := step (AuthStateChanged (Some "u1"))
             (constructor true
                (<["formData" := Json (JObj {["firstName" := JStr "Ana"]})]>
                   (<["progressData" := Json (JNum (Number 40 I))]>
                      {["forms_u1" := Json (JObj {["lastName" := JStr "Lee"]})]}))) in
  let w' := settle_in_turn (String.eqb "progressData") (length (localKeys w)) (forceSync w) in
  syncStatus w' = Synced
  ∧ localStorage w' !! "formData" = Some (Json (JObj {["firstName" := JStr "Ana"]}))
  ∧ localStorage w' !! "progressData" = None
  ∧ localStorage w' !! "forms_u1" = None
  ∧ length (requests w') = 2.
Proof.
  intros w w'.
  assert (Hu : truthy (userId w) = true) by by_running.
  assert (Hq : Forall (quiet Syncing "Syncing...") (functions (syncListeners w)))
    by by_running.
  assert (Ha : awaiting w = ∅) by by_running.
  pose proof (forceSync_uninterrupted_outcome (String.eqb "progressData") w Hu Hq Ha)
    as (Hs & _ & Hr & Hl).
  split; [exact Hs|].
  split; [refine (eq_trans (Hl "formData") _); by_running|].
  split; [refine (eq_trans (Hl "progressData") _); by_running|].
  split; [refine (eq_trans (Hl "forms_u1") _); by_running|].
  refine (eq_trans (f_equal length Hr) _). vm_compute. reflexivity.
Defined.

(** ** Debouncing *)

Lemma advance_to_nothing_due (t : N) (w : world) :
  Forall (λ x, (t < t_due x)%N) (timers w) →
  advance_to t w = set_clock (N.max (clock w) t) w.
Proof.
  intros H. unfold advance_to.
  assert (Hf : filter (λ x, (t_due x ≤ t)%N) (timers w) = []).
  { induction (timers w) as [|x l IH]; [done|].
    apply Forall_cons in H as [Hx H]. rewrite filter_cons_False by lia. by apply IH. }
  by rewrite Hf.
Qed.

Section debounce.

(** One field, and a world [w0] in which the user is signed in and no
    registered function throws on 'syncing'. *)
Variables (c d f : string) (w0 : world).
Hypothesis signed_in : truthy (userId w0) = true.
Hypothesis no_throw : Forall (quiet Syncing "Saving...") (functions (syncListeners w0)).

Lemma saveFormData_arms (v : json) (w : world) :
  userId w = userId w0 → syncListeners w = syncListeners w0 → requests w = requests w0 →
  (timers w = [] ∨
   ∃ id due a, timers w = [Timer id due a]
               ∧ pendingWrites w !! (c +:+ "." +:+ d +:+ "." +:+ f) = Some id) →
  armed c d f v (clock w) w0 (saveFormData c d f v w).
Proof.
  intros Hid Hls Hrq Ht. unfold saveFormData.
  rewrite Hid, signed_in. simpl negb. cbv iota.
  rewrite notify_quiet by (by rewrite Hls).
  set (w1 := set_calls _ (set_syncStatus Syncing w)).
  change (pendingWrites w1) with (pendingWrites w).
  assert (Hclear : timers (match pendingWrites w !! (c +:+ "." +:+ d +:+ "." +:+ f) with
                           | Some id => clearTimeout id w1
                           | None => w1
                           end) = []).
  { destruct Ht as [Ht|(id & due & a & Ht & Hp)].
    - destruct (pendingWrites w !! _); simpl; by rewrite Ht.
    - rewrite Hp. simpl. rewrite Ht. rewrite filter_cons_False by (simpl; intros ?; done).
      done. }
  destruct (pendingWrites w !! (c +:+ "." +:+ d +:+ "." +:+ f)) as [id|];
    unfold armed; simpl in *; rewrite Hclear; simpl;
    (repeat split; [done..|]);
    eexists; (split; [reflexivity|]); apply lookup_insert_eq.
Qed.

Lemma armed_rearm (v v' : json) (t t' : N) (w : world) :
  armed c d f v t w0 w →
  (t ≤ t' < t + writeDebounceMs)%N →
  armed c d f v' t' w0 (step (CallSaveFormData c d f v') (advance_to t' w)).
Proof.
  intros (Hc & Hr & Hid & Hls & id & Ht & Hp) Hlt.
  rewrite advance_to_nothing_due by (rewrite Ht; repeat constructor; simpl; lia).
  rewrite Hc, N.max_r by lia.
  apply (saveFormData_arms v' (set_clock t' w)); try done.
  right. by exists id, (t + writeDebounceMs)%N, (Flush c d f v (c +:+ "." +:+ d +:+ "." +:+ f)).
Qed.

Lemma armed_run (rest : list (N * json)) : ∀ t v w,
  armed c d f v t w0 w →
  rapid t rest.*1 →
  ∃ tn vn, last ((t, v) :: rest) = Some (tn, vn)
           ∧ armed c d f vn tn w0 (run (changes c d f rest) w).
Proof.
  induction rest as [|[t' v'] rest IH]; intros t v w Ha Hrapid.
  - by exists t, v.
  - destruct Hrapid as [Hlt Hrapid].
    destruct (IH t' v' (step (CallSaveFormData c d f v') (advance_to t' w)))
      as (tn & vn & Hlast & Harmed); [by eapply armed_rearm|done|].
    by exists tn, vn.
Qed.

Lemma armed_fires (v : json) (t T : N) (w : world) :
  armed c d f v t w0 w →
  (t + writeDebounceMs ≤ T)%N →
  requests (advance_to T w) =
    requests w0 ++ [Request (user_path w0)
                      (<["lastUpdated" := JStr (toISOString (t + writeDebounceMs))]> (sent f v))]
  ∧ timers (advance_to T w) = [].
Proof.
  intros (Hc & Hr & Hid & Hls & id & Ht & Hp) HT. unfold advance_to. rewrite Ht.
  rewrite filter_cons_True by (simpl; lia). rewrite filter_nil.
  change (merge_sort timer_le [?x]) with [x]. simpl foldl.
  unfold fire, flush_start, await_updateDocument, clearTimeout, user_path. simpl.
  rewrite Ht, Hr, Hid, Hc, N.max_r by lia.
  rewrite filter_cons_False by (simpl; intros ?; done).
  by rewrite assign_empty.
Qed.

(** X1, the debounce at work: user signed in, no registered function
    throwing on 'syncing', no timeout pending.  A run of calls for one
    field with no other event in between (no remote write settles during
    the run), the first not before the present and each later one less
    than 500 ms after the one before, followed by 500 ms or more of
    quiet, issues exactly one remote write; it is stamped 500 ms after
    the last call and carries the value of the last call under the name
    of the field, and nothing but the stamp when that name is
    [__proto__]. *)
Theorem rapid_changes_flush_once
    (t1 : N) (v1 : json) (rest : list (N * json)) (tn : N) (vn : json) (T : N) :
  timers w0 = [] →
  (clock w0 ≤ t1)%N →
  rapid t1 rest.*1 →
  last ((t1, v1) :: rest) = Some (tn, vn) →
  (tn + writeDebounceMs ≤ T)%N →
  let w' := advance_to T (run (changes c d f ((t1, v1) :: rest)) w0) in
  requests w' =
    requests w0 ++ [Request (user_path w0)
                      (<["lastUpdated" := JStr (toISOString (tn + writeDebounceMs))]>
                         (sent f vn))]
  ∧ timers w' = [].
Proof.
  intros Ht Hc Hrapid Hlast HT w'. subst w'.
  cbn [changes map run fst snd].
  assert (Ha : armed c d f v1 t1 w0 (step (CallSaveFormData c d f v1) (advance_to t1 w0))).
  { rewrite advance_to_nothing_due by (rewrite Ht; constructor).
    replace t1 with (clock (set_clock (N.max (clock w0) t1) w0)) at 1
      by (simpl; lia).
    apply saveFormData_arms; try done. by left. }
  destruct (armed_run rest t1 v1 _ Ha Hrapid) as (tn' & vn' & Hlast' & Harmed).
  rewrite Hlast in Hlast'. injection Hlast' as <- <-.
  by apply (armed_fires vn tn T).
Qed.

End debounce.

Lemma rapid_changes_flush_once_witness :
  let w := advance_to 2000
             (step (AuthStateChanged (Some "u1")) (addSyncListener (calm 1) fresh)) in
  let w' := advance_to 3200
              (run (changes "forms" "u1" "firstName"
                      [(2000%N, JStr "A"); (2300%N, JStr "An"); (2700%N, JStr "Ana")]) w) in
  timers w = []
  ∧ requests w' =
      [Request "users/u1" (<["lastUpdated" := JStr "1970-01-01T00:00:03.200Z"]>
                             {["firstName" := JStr "Ana"]})].
Proof.
  intros w w'.
  assert (Hu : truthy (userId w) = true) by by_running.
  assert (Hq : Forall (quiet Syncing "Saving...") (functions (syncListeners w)))
    by by_running.
  assert (Ht : timers w = []) by by_running.
  assert (Hc : (clock w ≤ 2000)%N) by by_running.
  assert (Hr : rapid 2000 [(2300%N, JStr "An"); (2700%N, JStr "Ana")].*1)
    by (vm_compute; repeat split; discriminate).
  assert (HT : (2700 + writeDebounceMs ≤ 3200)%N) by by_running.
  split; [exact Ht|].
  refine (eq_trans (proj1 (rapid_changes_flush_once "forms" "u1" "firstName" w Hu Hq
                             2000 (JStr "A") [(2300%N, JStr "An"); (2700%N, JStr "Ana")]
                             2700 (JStr "Ana") 3200 Ht Hc Hr eq_refl HT)) _).
  vm_compute. reflexivity.
Defined.

(** ** Two more facts about flushes and the fallback *)

(** X3: when the remote write of a flush is fulfilled and no registered
    function throws on 'synced', the status becomes 'synced', every
    registered function is told so, [localStorage] is untouched and the
    key leaves [pendingWrites]. *)
Theorem fulfilled_flush_ends_synced
    (rid : nat) (c d f : string) (v : json) (key : string) (w : world) :
  awaiting w !! rid = Some (FlushTask c d f v key) →
  Forall (quiet Synced "All changes saved") (functions (syncListeners w)) →
  let w' := step (Settled rid true) w in
  syncStatus w' = Synced
  ∧ calls w' = calls w ++ map (call_of Synced "All changes saved") (functions (syncListeners w))
  ∧ localStorage w' = localStorage w
  ∧ requests w' = requests w
  ∧ pendingWrites w' = delete key (pendingWrites w).
Proof.
  intros Ha Hq w'. subst w'. simpl. rewrite Ha. simpl.
  unfold flush_resume. by rewrite notify_quiet.
Qed.

Lemma fulfilled_flush_ends_synced_witness :
  let w := advance_to 650 (run [(0%N, CallAddSyncListener (calm 1));
                               (0%N, AuthStateChanged (Some "u1"));
                               (0%N, CallSaveFormData "users" "u1" "firstName" (JStr "Ana"))]
                              fresh) in
  let w' := step (Settled 0 true) w in
  awaiting w !! 0 = Some (FlushTask "users" "u1" "firstName" (JStr "Ana") "users.u1.firstName")
  ∧ syncStatus w' = Synced
  ∧ calls w' = [(1, Syncing, "Connecting..."); (1, Syncing, "Saving...");
                (1, Synced, "All changes saved")]
  ∧ localStorage w' = ∅.
Proof.
  intros w w'.
  assert (Ha : awaiting w !! 0
               = Some (FlushTask "users" "u1" "firstName" (JStr "Ana") "users.u1.firstName"))
    by by_running.
  assert (Hq : Forall (quiet Synced "All changes saved") (functions (syncListeners w)))
    by by_running.
  pose proof (fulfilled_flush_ends_synced 0 "users" "u1" "firstName" (JStr "Ana")
                "users.u1.firstName" w Ha Hq) as (Hs & Hc & Hl & _).
  split; [exact Ha|]. split; [exact Hs|].
  split; [refine (eq_trans Hc _) | refine (eq_trans Hl _)]; by_running.
Defined.

(** X4: when the slot [collection_docId] holds text that is neither empty
    nor a JSON object (text that does not parse, [null], a number, a
    string, a boolean), [_saveToLocalStorage] throws and stores nothing;
    a field change recorded while signed out then leaves the world as it
    was. *)
Theorem fallback_stores_nothing_over_other_text
    (c d f : string) (v : json) (w : world) :
  startingObject (localStorage w !! (c +:+ "_" +:+ d)) = None →
  _saveToLocalStorage c d f v w = (w, Throw)
  ∧ (truthy (userId w) = false → saveFormData c d f v w = w).
Proof.
  intros H.
  assert (Hs : _saveToLocalStorage c d f v w = (w, Throw)).
  { unfold _saveToLocalStorage.
    destruct (localStorage w !! (c +:+ "_" +:+ d)) as [[[]|[|]]|]; simplify_eq/=;
      try done; by destruct (String.eqb f "__proto__"). }
  split; [done|]. intros Hu. unfold saveFormData. by rewrite Hu, Hs.
Qed.

Lemma fallback_stores_nothing_over_other_text_witness :
  let w := setItem "users_u1" (Raw "Ana;Lee") fresh in
  saveFormData "users" "u1" "firstName" (JStr "Ana") w = w.
Proof.
  intros w.
  exact (proj2 (fallback_stores_nothing_over_other_text "users" "u1" "firstName" (JStr "Ana")
                  w eq_refl) eq_refl).
Defined.

(** ** More about the local fallback and the listeners *)



Lemma functions_filter (P : listener → Prop) `{∀ l, Decision (P l)} (ls : list listener) :
  functions (filter P ls) = filter P (functions ls).
Proof.
  unfold functions. induction ls as [|l ls IH]; [done|].
  destruct (decide (P l)) as [Hp|Hp], (decide (callable l = true)) as [Hc|Hc].
  - rewrite (filter_cons_True P), !(filter_cons_True (λ l, callable l = true)),
      (filter_cons_True P) by done. by rewrite IH.
  - rewrite (filter_cons_True P), !(filter_cons_False (λ l, callable l = true)) by done.
    apply IH.
  - rewrite (filter_cons_False P), (filter_cons_True (λ l, callable l = true)),
      (filter_cons_False P) by done. apply IH.
  - rewrite (filter_cons_False P), (filter_cons_False (λ l, callable l = true)) by done.
    apply IH.
Qed.

(** X6: once [removeSyncListener(callback)] has run, a notification calls
    no listener of that identity, however often it had been registered;
    the listeners it does call are the first of the remaining functions,
    in their registration order. *)
Theorem removed_listener_is_not_called (id : nat) (st : status) (msg : string) (w : world) :
  let w' := (_notifySyncListeners st msg (removeSyncListener id w)).1 in
  ∃ called rest,
    filter (λ l, lid l ≠ id) (functions (syncListeners w)) = called ++ rest
    ∧ calls w' = calls w ++ map (call_of st msg) called
    ∧ Forall (λ l, lid l ≠ id) called.
Proof.
  intros w'. subst w'. unfold _notifySyncListeners, removeSyncListener. simpl.
  destruct (forEach_spec st msg (filter (λ l, lid l ≠ id) (syncListeners w)) (calls w))
    as (called & rest & Hf & Hc & _).
  rewrite functions_filter in Hf.
  destruct (forEach _ st msg (calls w)) as [log c]. simpl in *.
  exists called, rest. split; [done|]. split; [done|].
  assert (Hall : Forall (λ l, lid l ≠ id) (called ++ rest)).
  { rewrite <- Hf. apply Forall_forall. intros l Hl.
    by apply list_elem_of_filter in Hl as [? _]. }
  by apply Forall_app in Hall as [? _].
Qed.

(** X10: an identity change to a signed-in user never replays the local
    backlog.  With Firebase loaded and no timeout pending, signing in sets
    the status to 'syncing'; 1.5 s later, with no other event, the status
    is 'synced' and [localStorage] and the list of remote writes are
    exactly what they were before the sign-in. *)
Theorem sign_in_replays_nothing (uid : string) (w : world) (T : N) :
  db w = true →
  timers w = [] →
  uid ≠ "" →
  (clock w + 1500 ≤ T)%N →
  let w1 := step (AuthStateChanged (Some uid)) w in
  let w' := advance_to T w1 in
  syncStatus w1 = Syncing
  ∧ syncStatus w' = Synced
  ∧ localStorage w' = localStorage w
  ∧ requests w' = requests w
  ∧ userId w' = Some uid
  ∧ timers w' = [].
Proof.
  intros Hdb Ht Huid HT w1 w'.
  assert (Htr : truthy (Some uid) = true) by (by destruct uid).
  assert (E1 : w1 = (_notifySyncListeners Syncing "Connecting..."
                       (setTimeout InitialSyncDone 1500 (set_userId (Some uid) w)).2).1).
  { subst w1. simpl. rewrite Hdb. unfold onAuthStateChanged, _startSync.
    change (userId (set_userId (Some uid) w)) with (Some uid).
    change (db (set_userId (Some uid) w)) with (db w). by rewrite Htr, Hdb. }
  destruct (notify_frame Syncing "Connecting..."
              (setTimeout InitialSyncDone 1500 (set_userId (Some uid) w)).2)
    as (Hs & Hl & Hr & _ & Hti & _ & Hu & _ & Hc).
  rewrite <- E1 in Hs, Hl, Hr, Hti, Hu, Hc. simpl in Hl, Hr, Hti, Hu, Hc.
  rewrite Ht in Hti. simpl in Hti.
  split; [done|]. subst w'. unfold advance_to. rewrite Hti.
  rewrite filter_cons_True by (simpl; lia). rewrite filter_nil.
  change (merge_sort timer_le [?x]) with [x]. simpl foldl. unfold fire. simpl t_action.
  cbv iota.
  destruct (notify_frame Synced "All changes saved"
              (set_clock (N.max (clock w1) (clock w + 1500))
                 (clearTimeout (nextTimerId w) w1)))
    as (Hs' & Hl' & Hr' & _ & Hti' & _ & Hu' & _).
  simpl in *. rewrite Hs', Hl', Hr', Hu', Hti', Hti, Hl, Hr, Hu.
  rewrite filter_cons_False by (simpl; intros ?; done). done.
Qed.

Lemma sign_in_replays_nothing_witness :
  let w := setItem "forms_u1" (Json (JObj {["firstName" := JStr "Ana"]})) fresh in
  let w' := advance_to 1500 (step (AuthStateChanged (Some "u1")) w) in
  syncStatus w' = Synced
  ∧ localStorage w' = {["forms_u1" := Json (JObj {["firstName" := JStr "Ana"]})]}
  ∧ requests w' = [].
Proof.
  intros w w'.
  assert (Hne : "u1" ≠ "") by discriminate.
  assert (HT : (clock w + 1500 ≤ 1500)%N) by by_running.
  destruct (sign_in_replays_nothing "u1" w 1500 eq_refl eq_refl Hne HT)
    as (_ & Hs & Hl & Hr & _).
  split; [exact Hs|]. split; [exact Hl | exact Hr].
Defined.

(** ** Pending flushes, identity changes and other fields *)

Lemma fire_localStorage (x : timer) (w : world) :
  localStorage (fire x w) = localStorage w.
Proof.
  unfold fire. destruct (t_action x); [done|].
  by destruct (notify_frame Synced "All changes saved"
                 (set_clock (N.max (clock w) (t_due x)) (clearTimeout (t_id x) w)))
    as (_ & -> & _).
Qed.

Lemma advance_to_localStorage (t : N) (w : world) :
  localStorage (advance_to t w) = localStorage w.
Proof.
  unfold advance_to. simpl.
  generalize (merge_sort timer_le (filter (λ x, (t_due x ≤ t)%N) (timers w))).
  intros due. revert w. induction due as [|x due IH]; intros w; [done|].
  simpl. by rewrite IH, fire_localStorage.
Qed.

Lemma saveFormData_db (c d f : string) (v : json) (w : world) :
  db (saveFormData c d f v w) = db w.
Proof.
  unfold saveFormData, _saveToLocalStorage, _notifySyncListeners.
  destruct (truthy (userId w)); simpl.
  - destruct (forEach (syncListeners w) Syncing "Saving..." (calls w)) as [log []]; simpl;
      [|done]. by destruct (pendingWrites w !! _).
  - destruct (if truthy_item _ then _ else _) as [[]|]; simpl; try done;
      by destruct (String.eqb f "__proto__").
Qed.

Lemma saveFormData_keeps_storage (c d f : string) (v : json) (w : world) :
  truthy (userId w) = true →
  localStorage (saveFormData c d f v w) = localStorage w.
Proof.
  intros Hu. unfold saveFormData, _notifySyncListeners. rewrite Hu. simpl.
  destruct (forEach (syncListeners w) Syncing "Saving..." (calls w)) as [log []]; simpl;
    [|done]. by destruct (pendingWrites w !! _).
Qed.

(** A lone pending flush fires once its time has come. *)
Lemma single_flush_fires (id : nat) (due : N) (c d f : string) (v : json) (key : string)
    (w : world) (T : N) :
  timers w = [Timer id due (Flush c d f v key)] →
  (due ≤ T)%N →
  requests (advance_to T w) =
    requests w ++ [Request (user_path w)
                     (<["lastUpdated" := JStr (toISOString (N.max (clock w) due))]>
                        (sent f v))]
  ∧ timers (advance_to T w) = []
  ∧ userId (advance_to T w) = userId w.
Proof.
  intros Ht HT. unfold advance_to. rewrite Ht.
  rewrite filter_cons_True by (simpl; lia). rewrite filter_nil.
  change (merge_sort timer_le [?x]) with [x]. simpl foldl.
  unfold fire, flush_start, await_updateDocument, clearTimeout, user_path. simpl.
  rewrite Ht. rewrite filter_cons_False by (simpl; intros ?; done).
  by rewrite assign_empty.
Qed.

(** X9: signing out does not cancel a pending flush.  User signed in, no
    registered function throwing on 'syncing', Firebase loaded, no timeout
    pending: a field change followed, less than 500 ms later, by the loss
    of the identity is still flushed when its 500 ms are over, and the
    write goes to the path [users/null]; it carries the value under the
    name of the field (nothing but the stamp for the name [__proto__]). *)
Theorem flush_after_sign_out_goes_to_users_null
    (c d f : string) (v : json) (w : world) (t t' T : N) :
  truthy (userId w) = true →
  Forall (quiet Syncing "Saving...") (functions (syncListeners w)) →
  db w = true →
  timers w = [] →
  (clock w ≤ t)%N →
  (t ≤ t' < t + writeDebounceMs)%N →
  (t + writeDebounceMs ≤ T)%N →
  let w' := advance_to T (run [(t, CallSaveFormData c d f v); (t', AuthStateChanged None)] w) in
  requests w' =
    requests w ++ [Request "users/null"
                     (<["lastUpdated" := JStr (toISOString (t + writeDebounceMs))]>
                        (sent f v))]
  ∧ userId w' = None
  ∧ localStorage w' = localStorage w.
Proof.
  intros Hu Hq Hdb Ht Hc Ht' HT w'. subst w'. cbn [run].
  set (w1 := step (CallSaveFormData c d f v) (advance_to t w)).
  assert (E0 : advance_to t w = set_clock t w).
  { rewrite advance_to_nothing_due by (rewrite Ht; constructor). by rewrite N.max_r. }
  assert (Ha : armed c d f v t w w1).
  { subst w1. rewrite E0.
    apply (saveFormData_arms c d f w Hu Hq v (set_clock t w)); try done. by left. }
  assert (Hdb1 : db w1 = true).
  { subst w1. rewrite E0. simpl. by rewrite saveFormData_db. }
  assert (Hl1 : localStorage w1 = localStorage w).
  { subst w1. rewrite E0. simpl. by rewrite saveFormData_keeps_storage. }
  destruct Ha as (Hc1 & Hr1 & _ & _ & id & Ht1 & _).
  assert (E1 : advance_to t' w1 = set_clock t' w1).
  { rewrite advance_to_nothing_due by (rewrite Ht1; repeat constructor; simpl; lia).
    by rewrite Hc1, N.max_r by lia. }
  rewrite E1. cbn [step]. change (db (set_clock t' w1)) with (db w1). rewrite Hdb1.
  unfold onAuthStateChanged.
  set (w2 := (_notifySyncListeners Offline "Not connected"
                (set_userId None (set_clock t' w1))).1).
  destruct (notify_frame Offline "Not connected" (set_userId None (set_clock t' w1)))
    as (_ & Hl2 & Hr2 & _ & Ht2 & _ & Hu2 & _ & Hc2).
  fold w2 in Hl2, Hr2, Ht2, Hu2, Hc2. simpl in Hl2, Hr2, Ht2, Hu2, Hc2.
  rewrite Ht1 in Ht2.
  destruct (single_flush_fires _ _ c d f v _ w2 T Ht2 HT) as (Hreq & _ & Hu3).
  rewrite Hreq, Hu3, advance_to_localStorage, Hl2, Hl1, Hr2, Hr1, Hc2, Hu2.
  unfold user_path. rewrite Hu2. simpl default.
  by rewrite N.max_r by lia.
Qed.

Lemma flush_after_sign_out_goes_to_users_null_witness :
  let w := advance_to 2000 (step (AuthStateChanged (Some "u1")) fresh) in
  let w' := advance_to 2500
              (run [(2000%N, CallSaveFormData "forms" "u1" "firstName" (JStr "Ana"));
                    (2100%N, AuthStateChanged None)] w) in
  requests w' =
    [Request "users/null" (<["lastUpdated" := JStr "1970-01-01T00:00:02.500Z"]>
                             {["firstName" := JStr "Ana"]})].
Proof.
  intros w w'.
  assert (Hu : truthy (userId w) = true) by by_running.
  assert (Hq : Forall (quiet Syncing "Saving...") (functions (syncListeners w)))
    by by_running.
  assert (Hdb : db w = true) by by_running.
  assert (Ht : timers w = []) by by_running.
  assert (Hc : (clock w ≤ 2000)%N) by by_running.
  assert (Ht' : (2000 ≤ 2100 < 2000 + writeDebounceMs)%N) by (vm_compute; by split).
  assert (HT : (2000 + writeDebounceMs ≤ 2500)%N) by by_running.
  refine (eq_trans (proj1 (flush_after_sign_out_goes_to_users_null "forms" "u1" "firstName"
                             (JStr "Ana") w 2000 2100 2500 Hu Hq Hdb Ht Hc Ht' HT)) _).
  by_running.
Defined.

Lemma merge_sort_two (x y : timer) :
  timer_le x y → merge_sort timer_le [x; y] = [x; y].
Proof.
  intros H.
  cbv [merge_sort merge_sort_aux merge_stack_flatten merge_list_to_stack list_merge].
  by destruct (decide (timer_le x y)).
Qed.

(** What a call of [saveFormData] leaves behind when the user is signed in
    and no registered function throws on 'syncing'. *)
Lemma saveFormData_signed_in (c d f : string) (v : json) (w : world) :
  truthy (userId w) = true →
  Forall (quiet Syncing "Saving...") (functions (syncListeners w)) →
  let key := c +:+ "." +:+ d +:+ "." +:+ f in
  let w' := saveFormData c d f v w in
  timers w' =
    match pendingWrites w !! key with
    | Some id => filter (λ x, t_id x ≠ id) (timers w)
    | None => timers w
    end ++ [Timer (nextTimerId w) (clock w + writeDebounceMs) (Flush c d f v key)]
  ∧ pendingWrites w' = <[key := nextTimerId w]> (pendingWrites w)
  ∧ nextTimerId w' = S (nextTimerId w)
  ∧ requests w' = requests w ∧ userId w' = userId w
  ∧ syncListeners w' = syncListeners w ∧ clock w' = clock w.
Proof.
  intros Hu Hq key w'. subst w'. unfold saveFormData. rewrite Hu. simpl negb. cbv iota.
  rewrite notify_quiet by done. fold key.
  set (w1 := set_calls _ (set_syncStatus Syncing w)).
  change (pendingWrites w1) with (pendingWrites w).
  by destruct (pendingWrites w !! key).
Qed.

(** X7: the debounce knows a field by the string
    [collection.docId.fieldName] only.  When two changes less than 500 ms
    apart have the same string, the second cancels the first even if
    collection, document or field differ: one remote write is issued, for
    the second change (its value under the name of its field, nothing but
    the stamp for the name [__proto__]), and the first is neither sent
    nor stored. *)
Theorem same_debounce_key_drops_the_earlier_change
    (c d f c' d' f' : string) (v v' : json) (w : world) (t1 t2 T : N) :
  truthy (userId w) = true →
  Forall (quiet Syncing "Saving...") (functions (syncListeners w)) →
  timers w = [] →
  c +:+ "." +:+ d +:+ "." +:+ f = c' +:+ "." +:+ d' +:+ "." +:+ f' →
  (clock w ≤ t1)%N →
  (t1 ≤ t2 < t1 + writeDebounceMs)%N →
  (t2 + writeDebounceMs ≤ T)%N →
  let w' := advance_to T (run [(t1, CallSaveFormData c d f v);
                               (t2, CallSaveFormData c' d' f' v')] w) in
  requests w' =
    requests w ++ [Request (user_path w)
                     (<["lastUpdated" := JStr (toISOString (t2 + writeDebounceMs))]>
                        (sent f' v'))]
  ∧ timers w' = []
  ∧ localStorage w' = localStorage w.
Proof.
  intros Hu Hq Ht Hkey Hc Ht2 HT w'. subst w'. cbn [run].
  assert (E0 : advance_to t1 w = set_clock t1 w).
  { rewrite advance_to_nothing_due by (rewrite Ht; constructor). by rewrite N.max_r. }
  rewrite E0. cbn [step].
  set (w1 := saveFormData c d f v (set_clock t1 w)).
  assert (Ha : armed c d f v t1 w w1).
  { apply (saveFormData_arms c d f w Hu Hq v (set_clock t1 w)); try done. by left. }
  assert (Hl1 : localStorage w1 = localStorage w)
    by (subst w1; by rewrite saveFormData_keeps_storage).
  destruct Ha as (Hc1 & Hr1 & Hu1 & Hls1 & id & Ht1 & Hp1).
  assert (E1 : advance_to t2 w1 = set_clock t2 w1).
  { rewrite advance_to_nothing_due by (rewrite Ht1; repeat constructor; simpl; lia).
    by rewrite Hc1, N.max_r by lia. }
  rewrite E1. set (w2 := saveFormData c' d' f' v' (set_clock t2 w1)).
  assert (Ha2 : armed c' d' f' v' t2 w w2).
  { apply (saveFormData_arms c' d' f' w Hu Hq v' (set_clock t2 w1)); try done.
    right. exists id, (t1 + writeDebounceMs)%N, (Flush c d f v (c +:+ "." +:+ d +:+ "." +:+ f)).
    split; [done|]. simpl. by rewrite <- Hkey. }
  assert (Hl2 : localStorage w2 = localStorage w).
  { subst w2. rewrite saveFormData_keeps_storage; [done|]. simpl. by rewrite Hu1. }
  destruct (armed_fires c' d' f' w v' t2 T w2 Ha2 HT) as [Hreq Htim].
  by rewrite Hreq, Htim, advance_to_localStorage, Hl2.
Qed.

Lemma same_debounce_key_drops_the_earlier_change_witness :
  let w := advance_to 2000 (step (AuthStateChanged (Some "u1")) fresh) in
  let w' := advance_to 2700
              (run [(2000%N, CallSaveFormData "forms" "n400.address" "city" (JStr "Lyon"));
                    (2200%N, CallSaveFormData "forms" "n400" "address.city" (JStr "Nice"))] w) in
  requests w' =
    [Request "users/u1" (<["lastUpdated" := JStr "1970-01-01T00:00:02.700Z"]>
                           {["address.city" := JStr "Nice"]})]
  ∧ localStorage w' = ∅.
Proof.
  intros w w'.
  assert (Hu : truthy (userId w) = true) by by_running.
  assert (Hq : Forall (quiet Syncing "Saving...") (functions (syncListeners w)))
    by by_running.
  assert (Ht : timers w = []) by by_running.
  assert (Hc : (clock w ≤ 2000)%N) by by_running.
  assert (Ht2 : (2000 ≤ 2200 < 2000 + writeDebounceMs)%N) by (vm_compute; by split).
  assert (HT : (2200 + writeDebounceMs ≤ 2700)%N) by by_running.
  destruct (same_debounce_key_drops_the_earlier_change
              "forms" "n400.address" "city" "forms" "n400" "address.city"
              (JStr "Lyon") (JStr "Nice") w 2000 2200 2700 Hu Hq Ht eq_refl Hc Ht2 HT)
    as (Hreq & _ & Hl).
  split; [refine (eq_trans Hreq _) | refine (eq_trans Hl _)]; by_running.
Defined.

(** X8: changes to fields with different debounce strings do not disturb
    each other.  User signed in, no registered function throwing on
    'syncing', no timeout pending and nothing pending for the second
    field: two changes less than 500 ms apart are both flushed, each
    500 ms after its own call and each with its own value under the name
    of its field (nothing but the stamp for the name [__proto__]), the
    earlier first. *)
Theorem distinct_fields_flush_independently
    (c d f c' d' f' : string) (v v' : json) (w : world) (t1 t2 T : N) :
  truthy (userId w) = true →
  Forall (quiet Syncing "Saving...") (functions (syncListeners w)) →
  timers w = [] →
  c +:+ "." +:+ d +:+ "." +:+ f ≠ c' +:+ "." +:+ d' +:+ "." +:+ f' →
  pendingWrites w !! (c' +:+ "." +:+ d' +:+ "." +:+ f') = None →
  (clock w ≤ t1)%N →
  (t1 ≤ t2 < t1 + writeDebounceMs)%N →
  (t2 + writeDebounceMs ≤ T)%N →
  let w' := advance_to T (run [(t1, CallSaveFormData c d f v);
                               (t2, CallSaveFormData c' d' f' v')] w) in
  requests w' =
    requests w ++
      [Request (user_path w)
         (<["lastUpdated" := JStr (toISOString (t1 + writeDebounceMs))]> (sent f v));
       Request (user_path w)
         (<["lastUpdated" := JStr (toISOString (t2 + writeDebounceMs))]> (sent f' v'))]
  ∧ timers w' = [].
Proof.
  intros Hu Hq Ht Hkey Hp Hc Ht2 HT w'. subst w'. cbn [run].
  assert (E0 : advance_to t1 w = set_clock t1 w).
  { rewrite advance_to_nothing_due by (rewrite Ht; constructor). by rewrite N.max_r. }
  rewrite E0. cbn [step].
  set (w1 := saveFormData c d f v (set_clock t1 w)).
  destruct (saveFormData_signed_in c d f v (set_clock t1 w) Hu Hq)
    as (Ht1 & Hp1 & Hn1 & Hr1 & Hu1 & Hls1 & Hc1).
  fold w1 in Ht1, Hp1, Hn1, Hr1, Hu1, Hls1, Hc1.
  cbn [timers pendingWrites nextTimerId requests userId syncListeners clock set_clock]
    in Ht1, Hp1, Hn1, Hr1, Hu1, Hls1, Hc1.
  rewrite Ht in Ht1.
  assert (Ht1' : timers w1 = [Timer (nextTimerId w) (t1 + writeDebounceMs)
                                (Flush c d f v (c +:+ "." +:+ d +:+ "." +:+ f))])
    by (rewrite Ht1; destruct (pendingWrites w !! (c +:+ "." +:+ d +:+ "." +:+ f));
        reflexivity).
  clear Ht1.
  assert (E1 : advance_to t2 w1 = set_clock t2 w1).
  { rewrite advance_to_nothing_due by (rewrite Ht1'; repeat constructor; simpl; lia).
    by rewrite Hc1, N.max_r by lia. }
  rewrite E1. set (w2 := saveFormData c' d' f' v' (set_clock t2 w1)).
  destruct (saveFormData_signed_in c' d' f' v' (set_clock t2 w1))
    as (Ht2' & _ & _ & Hr2 & Hu2 & _ & Hc2); [by rewrite <- Hu1 in Hu | by rewrite <- Hls1 in Hq |].
  fold w2 in Ht2', Hr2, Hu2, Hc2.
  cbn [timers pendingWrites nextTimerId requests userId syncListeners clock set_clock]
    in Ht2', Hr2, Hu2, Hc2.
  rewrite Hp1, lookup_insert_ne, Hp, Ht1', Hn1 in Ht2' by done. cbn [app] in Ht2'.
  unfold advance_to. rewrite Ht2'.
  rewrite !filter_cons_True by (simpl; lia). rewrite filter_nil.
  rewrite merge_sort_two by (unfold timer_le; simpl; lia).
  simpl foldl. unfold fire, flush_start, await_updateDocument, clearTimeout, user_path.
  simpl. rewrite Ht2', Hr2, Hr1, Hu2, Hu1, Hc2.
  rewrite (filter_cons_False _ (Timer (nextTimerId w) _ _)) by (simpl; intros ?; done).
  rewrite (filter_cons_True _ (Timer (S (nextTimerId w)) _ _)) by (simpl; lia).
  rewrite filter_nil. simpl.
  rewrite (filter_cons_False _ (Timer (S (nextTimerId w)) _ _)) by (simpl; intros ?; done).
  rewrite filter_nil, !assign_empty, <- app_assoc. simpl.
  by rewrite !N.max_r by lia.
Qed.

Lemma distinct_fields_flush_independently_witness :
  let w := advance_to 2000 (step (AuthStateChanged (Some "u1")) fresh) in
  let w' := advance_to 2700
              (run [(2000%N, CallSaveFormData "forms" "n400" "firstName" (JStr "Ana"));
                    (2200%N, CallSaveFormData "forms" "n400" "lastName" (JStr "Lee"))] w) in
  requests w' =
    [Request "users/u1" (<["lastUpdated" := JStr "1970-01-01T00:00:02.500Z"]>
                           {["firstName" := JStr "Ana"]});
     Request "users/u1" (<["lastUpdated" := JStr "1970-01-01T00:00:02.700Z"]>
                           {["lastName" := JStr "Lee"]})].
Proof.
  intros w w'.
  assert (Hu : truthy (userId w) = true) by by_running.
  assert (Hq : Forall (quiet Syncing "Saving...") (functions (syncListeners w)))
    by by_running.
  assert (Ht : timers w = []) by by_running.
  assert (Hk : "forms" +:+ "." +:+ "n400" +:+ "." +:+ "firstName"
               ≠ "forms" +:+ "." +:+ "n400" +:+ "." +:+ "lastName") by by_running.
  assert (Hp : pendingWrites w !! ("forms" +:+ "." +:+ "n400" +:+ "." +:+ "lastName") = None)
    by by_running.
  assert (Hc : (clock w ≤ 2000)%N) by by_running.
  assert (Ht2 : (2000 ≤ 2200 < 2000 + writeDebounceMs)%N) by (vm_compute; by split).
  assert (HT : (2200 + writeDebounceMs ≤ 2700)%N) by by_running.
  refine (eq_trans (proj1 (distinct_fields_flush_independently
                             "forms" "n400" "firstName" "forms" "n400" "lastName"
                             (JStr "Ana") (JStr "Lee") w 2000 2200 2700
                             Hu Hq Ht Hk Hp Hc Ht2 HT)) _).
  by_running.
Defined.

(** ** Whole-document saves and their replay *)







(** ** The Firebase core *)

Lemma initializeFirebase_flag (k : FirebaseCore.sdk) (s : FirebaseCore.state) :
  FirebaseCore.isFirebaseInitialized (FirebaseCore.initializeFirebase k s).1 = true
  ↔ FirebaseCore.isFirebaseInitialized s = true ∨ complete k.
Proof.
  unfold FirebaseCore.initializeFirebase, complete.
  destruct (FirebaseCore.isFirebaseInitialized s) eqn:Hs; simpl; [by intuition|].
  destruct k as [[a|] [b|] [c|] [d|]]; simpl; rewrite ?Hs;
    (split; [intros H | intros [H|(Ha & Hb & Hc & Hd)]]); try done;
    try (right; by repeat split);
    by first [destruct Ha | destruct Hb | destruct Hc | destruct Hd].
Qed.

Lemma initializeFirebase_whole (k : FirebaseCore.sdk) (s : FirebaseCore.state) :
  (FirebaseCore.isFirebaseInitialized s = true →
   ∃ a b c d, s = FirebaseCore.State (Some a) (Some b) (Some c) (Some d) true) →
  FirebaseCore.isFirebaseInitialized (FirebaseCore.initializeFirebase k s).1 = true →
  ∃ a b c d, (FirebaseCore.initializeFirebase k s).1
             = FirebaseCore.State (Some a) (Some b) (Some c) (Some d) true.
Proof.
  intros Hinv. unfold FirebaseCore.initializeFirebase.
  destruct (FirebaseCore.isFirebaseInitialized s) eqn:Hs; simpl; [by intros _; apply Hinv|].
  destruct k as [[a|] [b|] [c|] [d|]]; simpl; rewrite ?Hs; try done.
  intros _. by exists a, b, c, d.
Qed.

Lemma attempts_from (ks : list FirebaseCore.sdk) : ∀ s,
  (FirebaseCore.isFirebaseInitialized s = true →
   ∃ a b c d, s = FirebaseCore.State (Some a) (Some b) (Some c) (Some d) true) →
  let s' := foldl (λ s k, (FirebaseCore.initializeFirebase k s).1) s ks in
  (FirebaseCore.isFirebaseInitialized s' = true
   ↔ FirebaseCore.isFirebaseInitialized s = true ∨ Exists complete ks)
  ∧ (FirebaseCore.isFirebaseInitialized s' = true →
     ∃ a b c d, s' = FirebaseCore.State (Some a) (Some b) (Some c) (Some d) true).
Proof.
  induction ks as [|k ks IH]; intros s Hinv; simpl.
  - split; [|done]. rewrite Exists_nil. by intuition.
  - destruct (IH (FirebaseCore.initializeFirebase k s).1) as [Hiff Hwhole].
    { by apply initializeFirebase_whole. }
    split; [|done]. rewrite Hiff, initializeFirebase_flag, Exists_cons. by intuition.
Qed.

(** X11: the Firebase core is initialised all or nothing.  After any run
    of [initializeFirebase] calls the flag is set exactly when on some
    call all four SDK calls returned.  Once it is set the four instances
    are all there, the three getters return them, and a further call
    returns the same instances and changes nothing, whatever the SDK would
    do.  While it is not set every getter throws, also after an attempt
    that got some of the instances, and [updateDocument] is rejected
    before Firestore is asked. *)
Theorem firebase_core_is_initialized_all_or_nothing (ks : list FirebaseCore.sdk) :
  let s := after_attempts ks in
  (FirebaseCore.isFirebaseInitialized s = true ↔ Exists complete ks)
  ∧ (FirebaseCore.isFirebaseInitialized s = true →
     ∃ a b c d,
       s = FirebaseCore.State (Some a) (Some b) (Some c) (Some d) true
       ∧ FirebaseCore.getFirebaseAuth s = FirebaseCore.Returned b
       ∧ FirebaseCore.getFirebaseDb s = FirebaseCore.Returned c
       ∧ FirebaseCore.getFirebaseStorage s = FirebaseCore.Returned d
       ∧ ∀ k, FirebaseCore.initializeFirebase k s
              = (s, FirebaseCore.Returned (Some a, Some b, Some c, Some d)))
  ∧ (FirebaseCore.isFirebaseInitialized s = false →
     FirebaseCore.getFirebaseAuth s = FirebaseCore.Threw
     ∧ FirebaseCore.getFirebaseDb s = FirebaseCore.Threw
     ∧ FirebaseCore.getFirebaseStorage s = FirebaseCore.Threw
     ∧ ∀ path data, FirebaseCore.updateDocument path data s = None).
Proof.
  intros s. destruct (attempts_from ks FirebaseCore.unloaded) as [Hiff Hwhole]; [done|].
  fold (after_attempts ks) in Hiff, Hwhole. fold s in Hiff, Hwhole.
  split; [|split].
  - rewrite Hiff. simpl. by intuition.
  - intros Hs. destruct (Hwhole Hs) as (a & b & c & d & Heq).
    exists a, b, c, d. by rewrite Heq.
  - intros Hs. unfold FirebaseCore.updateDocument, FirebaseCore.getFirebaseAuth,
      FirebaseCore.getFirebaseDb, FirebaseCore.getFirebaseStorage, FirebaseCore.getter.
    by rewrite Hs.
Qed.

(** X12: what a flush hands to Firestore.  With the core initialised, the
    write that the timeout of a field change issues reaches [docRef.update]
    with the path [users/<userId>] and exactly the fields [fieldName],
    [lastUpdated] and [updatedAt], or the last two alone when the field is
    named [__proto__]: [updatedAt] is the server time stamp,
    [lastUpdated] the time of the flush, and [fieldName] holds the value
    of the change when it is none of those three names; a field called
    [lastUpdated] or [updatedAt] is sent with the stamp, not the value. *)
Theorem flush_hands_firestore_one_field
    (id : nat) (due : N) (c d f : string) (v : json) (key : string) (w : world)
    (s : FirebaseCore.state) (dbInstance : nat) :
  FirebaseCore.getFirebaseDb s = FirebaseCore.Returned dbInstance →
  let w' := fire (Timer id due (Flush c d f v key)) w in
  ∃ r payload,
    requests w' = requests w ++ [r]
    ∧ FirebaseCore.updateDocument (rq_path r) (rq_data r) s
      = Some (dbInstance, user_path w, payload)
    ∧ (f ≠ "__proto__" → dom payload = {[f; "lastUpdated"; "updatedAt"]})
    ∧ (f = "__proto__" → dom payload = {["lastUpdated"; "updatedAt"]})
    ∧ payload !! "updatedAt" = Some FirebaseCore.ServerTimestamp
    ∧ payload !! "lastUpdated" = Some (FirebaseCore.Val (JStr (toISOString (clock w'))))
    ∧ (f ≠ "lastUpdated" → f ≠ "updatedAt" → f ≠ "__proto__" →
       payload !! f = Some (FirebaseCore.Val v)).
Proof.
  intros Hdb w'. subst w'. unfold fire, flush_start, await_updateDocument. simpl.
  eexists _, _. split; [reflexivity|]. unfold FirebaseCore.updateDocument. rewrite Hdb.
  simpl. split; [reflexivity|]. rewrite assign_empty. unfold sent.
  split; [|split].
  { intros Hf. destruct (decide (f = "__proto__")); [done|].
    rewrite dom_insert_L, dom_fmap_L, dom_insert_L, dom_singleton_L.
    apply set_eq. intros x. rewrite !elem_of_union, !elem_of_singleton.
    tauto. }
  { intros Hf. destruct (decide (f = "__proto__")); [|done].
    rewrite dom_insert_L, dom_fmap_L, dom_insert_L, dom_empty_L.
    apply set_eq. intros x. rewrite !elem_of_union, !elem_of_singleton, elem_of_empty.
    tauto. }
  split; [apply lookup_insert_eq|].
  split; [by rewrite lookup_insert_ne, lookup_fmap, lookup_insert_eq|].
  intros H1 H2 H3. destruct (decide (f = "__proto__")); [done|].
  by rewrite lookup_insert_ne, lookup_fmap, lookup_insert_ne, lookup_singleton_eq.
Qed.

Lemma flush_hands_firestore_one_field_witness :
  let s := after_attempts [FirebaseCore.Sdk (Some 1) (Some 2) (Some 3) (Some 4)] in
  let w := advance_to 400 (step (AuthStateChanged (Some "u1")) fresh) in
  let w' := fire (Timer 7 500 (Flush "forms" "n400" "city" (JStr "Lyon") "forms.n400.city")) w in
  ∃ r payload,
    requests w' = requests w ++ [r]
    ∧ FirebaseCore.updateDocument (rq_path r) (rq_data r) s = Some (3, "users/u1", payload)
    ∧ payload !! "city" = Some (FirebaseCore.Val (JStr "Lyon")).
Proof.
  intros s w w'.
  destruct (flush_hands_firestore_one_field 7 500 "forms" "n400" "city" (JStr "Lyon")
              "forms.n400.city" w s 3 eq_refl)
    as (r & payload & Hr & Hu & _ & _ & _ & _ & Hf).
  exists r, payload. split; [exact Hr|]. split; [exact Hu|]. by apply Hf.
Defined.

(** ** Documents *)

(** Goals about a list of remote calls that is known in full. *)
Ltac settle_effects :=
  repeat split; intros;
  repeat match goal with
    | H : _ ∈ [] |- _ => by apply elem_of_nil in H
    | H : _ ∈ _ :: _ |- _ => apply elem_of_cons in H as [H|H]
    | H : is_Some None |- _ => by destruct H
    | H : _ ∨ _ |- _ => destruct H
    end;
  simplify_eq/=;
  repeat match goal with
    | |- _ ∧ _ => split
    | |- ∃ _, _ => eexists
    | |- ∀ _, _ => intros
    | H : _ ∈ [] |- _ => by apply elem_of_nil in H
    | H : _ ∈ _ :: _ |- _ => apply elem_of_cons in H as [H|H]; simplify_eq/=
    end;
  try done;
  try (by eauto using list_elem_of_here, list_elem_of_further).

Lemma validateFile_Valid (file : option DocumentManager.file) :
  DocumentManager.validateFile file = DocumentManager.Valid →
  ∃ f, file = Some f
       ∧ (DocumentManager.size f ≤ DocumentManager.MAX_FILE_SIZE)%N
       ∧ DocumentManager.type f ∈ DocumentManager.ALLOWED_TYPES.
Proof.
  unfold DocumentManager.validateFile. destruct file as [f|]; [|done].
  destruct (N.ltb_spec DocumentManager.MAX_FILE_SIZE (DocumentManager.size f)); [done|].
  case_bool_decide; [|done]. intros _. by exists f.
Qed.

(** X15: metadata is written only for a file that was uploaded.  The
    write to [users/{uid}/documents/{docType}] is attempted only after the
    upload to storage went through and the download URL was obtained, for
    a valid file of a signed-in user, and it describes that file: its
    name, content type and size.  The promise is fulfilled exactly when
    all three remote calls succeed, and then these three calls, in this
    order, are all that happened. *)
Theorem metadata_is_written_only_for_an_uploaded_file
    (file : option DocumentManager.file) (docType : string)
    (fb : DocumentManager.firebase) (r : DocumentManager.remote) (now : N)
    (storage : gmap string text) :
  let res := DocumentManager.uploadDocument file docType fb r now storage in
  (∀ uid dt data,
     DocumentManager.FirestoreSet uid dt data ∈ res.1.2 →
     DocumentManager.put_ok r = true
     ∧ DocumentManager.downloadURL r = Some (DocumentManager.fileUrl data)
     ∧ DocumentManager.currentUser fb = Some uid ∧ dt = docType
     ∧ ∃ f, file = Some f
            ∧ (DocumentManager.size f ≤ 5 * 1024 * 1024)%N
            ∧ DocumentManager.type f
                ∈ ["application/pdf"; "image/jpeg"; "image/png"; "image/jpg"]
            ∧ DocumentManager.fileName data = DocumentManager.name f
            ∧ DocumentManager.mimeType data = DocumentManager.type f
            ∧ DocumentManager.fileSize data = DocumentManager.size f
            ∧ DocumentManager.StoragePut (DocumentManager.storagePath data) f ∈ res.1.2)
  ∧ (∀ data,
       res.1.1 = DocumentManager.Resolved data ↔
       ∃ uid f,
         DocumentManager.set_ok r = true
         ∧ res.1.2 = [DocumentManager.StoragePut (DocumentManager.storagePath data) f;
                      DocumentManager.GetDownloadURL (DocumentManager.storagePath data);
                      DocumentManager.FirestoreSet uid docType data]).
Proof.
  intros res. subst res. unfold DocumentManager.uploadDocument.
  destruct (DocumentManager.validateFile file) eqn:Hv.
  2:{ split; [intros ? ? ? H; by apply elem_of_nil in H|].
      intros data. split; [done|]. by intros (? & ? & _ & ?). }
  destruct (validateFile_Valid file Hv) as (f & -> & Hs & Ht).
  destruct (DocumentManager.initialized fb); simpl.
  2:{ split; [intros ? ? ? H; by apply elem_of_nil in H|].
      intros data. split; [done|]. by intros (? & ? & _ & ?). }
  destruct (DocumentManager.currentUser fb) as [uid|]; simpl.
  2:{ split; [intros ? ? ? H; by apply elem_of_nil in H|].
      intros data. split; [done|]. by intros (? & ? & _ & ?). }
  destruct (DocumentManager.put_ok r); simpl.
  2:{ split.
      - intros ? ? ? H. apply list_elem_of_singleton in H. done.
      - intros data. split; [done|]. by intros (? & ? & _ & ?). }
  destruct (DocumentManager.downloadURL r) as [url|]; simpl.
  2:{ split.
      - intros ? ? ? H. rewrite !elem_of_cons, elem_of_nil in H.
        by destruct H as [|[|]].
      - intros data. split; [done|]. by intros (? & ? & _ & ?). }
  split.
  - intros uid' dt data H.
    assert (Hin : DocumentManager.FirestoreSet uid' dt data
                  = DocumentManager.FirestoreSet uid docType
                      (DocumentManager.DocData docType (DocumentManager.name f) url
                         ("users/" +:+ uid +:+ "/documents/" +:+ docType +:+ "/"
                            +:+ pretty now +:+ "_" +:+ DocumentManager.name f)
                         (DocumentManager.type f) (DocumentManager.size f))).
    { destruct (DocumentManager.set_ok r); simpl in H;
        rewrite !elem_of_cons, elem_of_nil in H; by destruct H as [|[|[|]]]. }
    injection Hin as -> -> ->. simpl.
    repeat split; try done. exists f. repeat split; try done.
    destruct (DocumentManager.set_ok r); simpl; apply list_elem_of_here.
  - intros data. destruct (DocumentManager.set_ok r); simpl.
    + split.
      * intros [= <-]. by exists uid, f.
      * intros (uid' & f' & _ & [= _ _ _ _ <-]). done.
    + split; [done|]. by intros (? & ? & ? & _).
Qed.

(** X16: the metadata of a document outlives a failed deletion of its
    file.  [deleteDocument] asks Firestore to delete the metadata only
    after the read succeeded and, when the metadata names a stored file,
    after the deletion of that file succeeded; without Firebase or without
    a user it makes no remote call.  It resolves only when Firestore
    confirmed the deletion, and it does so also for a document that was
    never there. *)
Theorem metadata_outlives_a_failed_file_deletion
    (docType : string) (fb : DocumentManager.firebase) (r : DocumentOps.removal) :
  let res := DocumentOps.deleteDocument docType fb r in
  (∀ uid dt,
     DocumentOps.FirestoreDelete uid dt ∈ res.2 →
     DocumentManager.currentUser fb = Some uid ∧ dt = docType
     ∧ DocumentOps.reads r ≠ DocumentOps.GetFails
     ∧ ∀ path, DocumentOps.StorageDelete path ∈ res.2 → DocumentOps.blob_deleted r = true)
  ∧ (∀ path,
       DocumentOps.StorageDelete path ∈ res.2 →
       ∃ d, DocumentOps.reads r = DocumentOps.Present d
            ∧ DocumentOps.storagePath d = Some path ∧ path ≠ "")
  ∧ (res.1 = DocumentOps.Resolved () →
     DocumentOps.doc_deleted r = true
     ∧ ∃ uid, DocumentOps.FirestoreDelete uid docType ∈ res.2)
  ∧ (DocumentManager.initialized fb = false ∨ DocumentManager.currentUser fb = None →
     res.2 = [])
  ∧ (DocumentManager.initialized fb = true → is_Some (DocumentManager.currentUser fb) →
     DocumentOps.reads r = DocumentOps.Absent → DocumentOps.doc_deleted r = true →
     res.1 = DocumentOps.Resolved ()).
Proof.
  intros res. subst res. unfold DocumentOps.deleteDocument, DocumentOps.getDocument.
  destruct (DocumentManager.initialized fb); simpl; [|by settle_effects].
  destruct (DocumentManager.currentUser fb) as [uid|]; simpl; [|by settle_effects].
  destruct (DocumentOps.reads r) as [| |[[[|a path]|] url fname]] eqn:Hr; simpl;
    destruct (DocumentOps.blob_deleted r), (DocumentOps.doc_deleted r); simpl;
    settle_effects.
Qed.

Lemma nearest_tenth (num den : N) :
  (0 < den)%N →
  let tenths := ((20 * num + den) / (2 * den))%N in
  (2 * den * tenths ≤ 20 * num + den)%N ∧ (20 * num + den < 2 * den * (tenths + 1))%N.
Proof.
  intros Hden tenths. subst tenths.
  assert (Hne : (2 * den ≠ 0)%N) by lia.
  pose proof (N.div_mod (20 * num + den) (2 * den) Hne) as Hdm.
  pose proof (N.mod_lt (20 * num + den) (2 * den) Hne) as Hlt.
  set (q := ((20 * num + den) / (2 * den))%N) in *.
  set (m := ((20 * num + den) mod (2 * den))%N) in *.
  nia.
Qed.

(** X17: the size shown for a file of a whole number of bytes below 2^53.
    Nothing is shown for 0 bytes but "Unknown"; below 1024 the bytes are
    shown as they are; from 1024 on the size is shown in KB, from
    1024 * 1024 on in MB, with one decimal: the number of tenths shown is
    the nearest one to the true size, the larger of two equally near, so
    the size shown is off by at most a twentieth of the unit. *)
Theorem formatFileSize_shows_the_nearest_tenth (bytes : N) :
  (bytes < 2 ^ 53)%N →
  (bytes = 0%N → DocumentOps.formatFileSize bytes = "Unknown")
  ∧ ((0 < bytes < 1024)%N → DocumentOps.formatFileSize bytes = pretty bytes +:+ " B")
  ∧ ((1024 ≤ bytes)%N →
     let den := if (bytes <? 1024 * 1024)%N then 1024%N else (1024 * 1024)%N in
     let unit := if (bytes <? 1024 * 1024)%N then " KB" else " MB" in
     ∃ tenths : N,
       DocumentOps.formatFileSize bytes
       = (pretty (tenths / 10)%N +:+ "." +:+ pretty (tenths mod 10)%N) +:+ unit
       ∧ (2 * den * tenths ≤ 20 * bytes + den)%N
       ∧ (20 * bytes + den < 2 * den * (tenths + 1))%N).
Proof.
  intros Hsafe. change (2 ^ 53)%N with 9007199254740992%N in Hsafe.
  unfold DocumentOps.formatFileSize. split; [by intros ->|]. split.
  - intros [H0 H1].
    destruct (N.eqb_spec bytes 0); [lia|]. destruct (N.ltb_spec bytes 1024); [done|lia].
  - intros H.
    destruct (N.eqb_spec bytes 0); [lia|]. destruct (N.ltb_spec bytes 1024); [lia|].
    unfold DocumentOps.toFixed1.
    change (10 ^ 21 * 1024)%N with 1024000000000000000000000%N.
    change (10 ^ 21 * (1024 * 1024))%N with 1048576000000000000000000000%N.
    destruct (N.leb_spec 1024000000000000000000000 bytes); [lia|].
    destruct (N.leb_spec 1048576000000000000000000000 bytes); [lia|].
    destruct (N.ltb_spec bytes (1024 * 1024)); simpl.
    + exists ((20 * bytes + 1024) / (2 * 1024))%N. split; [done|].
      by apply (nearest_tenth bytes 1024).
    + exists ((20 * bytes + 1024 * 1024) / (2 * (1024 * 1024)))%N. split; [done|].
      by apply (nearest_tenth bytes (1024 * 1024)).
Qed.

Lemma formatFileSize_shows_the_nearest_tenth_witness :
  DocumentOps.formatFileSize 1536 = "1.5 KB"
  ∧ DocumentOps.formatFileSize 1048575 = "1024.0 KB"
  ∧ DocumentOps.formatFileSize 5242880 = "5.0 MB"
  ∧ ∃ tenths : N,
      DocumentOps.formatFileSize 1280
      = (pretty (tenths / 10)%N +:+ "." +:+ pretty (tenths mod 10)%N) +:+ " KB"
      ∧ (2 * 1024 * tenths ≤ 20 * 1280 + 1024)%N
      ∧ (20 * 1280 + 1024 < 2 * 1024 * (tenths + 1))%N.
Proof.
  split; [by_running|]. split; [by_running|]. split; [by_running|].
  assert (Hsafe : (1280 < 2 ^ 53)%N) by by_running.
  assert (H : (1024 ≤ 1280)%N) by by_running.
  exact (proj2 (proj2 (formatFileSize_shows_the_nearest_tenth 1280 Hsafe)) H).
Defined.
